(** * SuperLibrary chat widget: [static/js/chatbot.js]

    A shallow embedding of the chat-session controller of the SuperLibrary
    web page and the properties of it that the specification states.

    Conventions of the embedding.

    - A JavaScript string is a [string] holding its UTF-8 encoding, so the
      literals below read as they do in the script.
    - A value decoded from a JSON body is a [value].  A number is kept by
      what the script can observe of the double it decodes to: the text its
      conversion to a string gives, and its tests against zero.
    - The page is the part of the document the script touches: the children
      of [#chatMessages] and the content of [#messageInput].  Both elements
      are taken to exist, and the rest of the document to hold no element of
      the typing indicator's id.  Markup assigned to [innerHTML] is kept as
      the text assigned; scrolling ([scrollTop]) is layout and is left out.
    - The elements a browser parses out of assigned markup are not part of
      the page.  A search by id therefore meets the elements the script
      created and no other: it is the search of the document as long as the
      markup on the page is text and the tags of the script's own templates,
      which carry no id.  The statements about the typing indicator are made
      for such pages ([inert], below); text with other tags in it can bring
      an element of the indicator's id, or a script, into the document.
    - An [async] function is cut at its [await]: the part before it is one
      event, the part after it another, run when the request settles. *)

From Stdlib Require Import String Ascii List ZArith Lia Bool.
Import ListNotations.

Local Open Scope string_scope.
Local Open Scope list_scope.

(* ================================================================= *)
(** ** JavaScript strings *)

Module JsString.

Definition byte (n : nat) : ascii := ascii_of_nat n.

(** One-character strings that cannot be written inside a literal. *)
Definition dquote : string := String (byte 34) EmptyString.
Definition newline : string := String (byte 10) EmptyString.

Fixpoint spaces (n : nat) : string :=
  match n with
  | O => EmptyString
  | S k => String " " (spaces k)
  end.

Definition byte_in (a : ascii) (codes : list nat) : bool :=
  existsb (Nat.eqb (nat_of_ascii a)) codes.

(** ECMAScript WhiteSpace and LineTerminator, by UTF-8 encoding.
    One byte: TAB, LF, VT, FF, CR, SP. *)
Definition ws1 (a : ascii) : bool := byte_in a [9; 10; 11; 12; 13; 32].

(** Two bytes: U+00A0 (C2 A0). *)
Definition ws2 (a b : ascii) : bool :=
  Nat.eqb (nat_of_ascii a) 194 && Nat.eqb (nat_of_ascii b) 160.

(** Three bytes: U+1680 (E1 9A 80); U+2000..U+200A, U+2028, U+2029, U+202F
    (E2 80 80..8A, A8, A9, AF); U+205F (E2 81 9F); U+3000 (E3 80 80);
    U+FEFF (EF BB BF). *)
Definition ws3 (a b c : ascii) : bool :=
  match nat_of_ascii a, nat_of_ascii b with
  | 225, 154 => Nat.eqb (nat_of_ascii c) 128
  | 226, 128 =>
      byte_in c [128; 129; 130; 131; 132; 133; 134; 135; 136; 137; 138;
                 168; 169; 175]
  | 226, 129 => Nat.eqb (nat_of_ascii c) 159
  | 227, 128 => Nat.eqb (nat_of_ascii c) 128
  | 239, 187 => Nat.eqb (nat_of_ascii c) 191
  | _, _ => false
  end.

(** Drops the white space a string starts with.  [w2] and [w3] recognise
    the two- and three-byte characters in the order the bytes are met, so
    that the same function serves both ends. *)
Fixpoint drop_ws (w2 : ascii -> ascii -> bool)
         (w3 : ascii -> ascii -> ascii -> bool) (s : string) : string :=
  match s with
  | EmptyString => EmptyString
  | String a r =>
      if ws1 a then drop_ws w2 w3 r
      else
        match r with
        | EmptyString => s
        | String b r2 =>
            if w2 a b then drop_ws w2 w3 r2
            else
              match r2 with
              | EmptyString => s
              | String c r3 => if w3 a b c then drop_ws w2 w3 r3 else s
              end
        end
  end.

Fixpoint rev_acc (s acc : string) : string :=
  match s with
  | EmptyString => acc
  | String a r => rev_acc r (String a acc)
  end.

Definition rev (s : string) : string := rev_acc s EmptyString.

Definition trimStart (s : string) : string := drop_ws ws2 ws3 s.

Definition trimEnd (s : string) : string :=
  rev (drop_ws (fun b a => ws2 a b) (fun c b a => ws3 a b c) (rev s)).

(** [String.prototype.trim]. *)
Definition trim (s : string) : string := trimEnd (trimStart s).

(** The white-space characters, each as the string of its bytes. *)
Definition of_bytes (l : list nat) : string :=
  fold_right (fun n s => String (byte n) s) EmptyString l.

Definition white_space : list string :=
  map of_bytes
    [ [9]; [10]; [11]; [12]; [13]; [32]; [194; 160]; [225; 154; 128];
      [226; 128; 128]; [226; 128; 129]; [226; 128; 130]; [226; 128; 131];
      [226; 128; 132]; [226; 128; 133]; [226; 128; 134]; [226; 128; 135];
      [226; 128; 136]; [226; 128; 137]; [226; 128; 138]; [226; 128; 168];
      [226; 128; 169]; [226; 128; 175]; [226; 129; 159]; [227; 128; 128];
      [239; 187; 191] ].

(** A string made of white space only (the empty string included). *)
Inductive blank : string -> Prop :=
| blank_empty : blank EmptyString
| blank_more (w s : string) : In w white_space -> blank s -> blank (w ++ s).

(** [text.replace(/\n/g, '<br>')]. *)
Fixpoint replace_newlines (s : string) : string :=
  match s with
  | EmptyString => EmptyString
  | String a r =>
      if Nat.eqb (nat_of_ascii a) 10 then "<br>" ++ replace_newlines r
      else String a (replace_newlines r)
  end.

(** Substring test, used to look for a marker in rendered markup. *)
Fixpoint includes (needle hay : string) : bool :=
  if prefix needle hay then true
  else
    match hay with
    | EmptyString => false
    | String _ r => includes needle r
    end.

End JsString.

Import JsString.

(* ================================================================= *)
(** ** JavaScript values and completions *)

#[local] Set Warnings "-register-all".

(** A number, by what the script observes of it: [num_text] is the text
    that the conversion of the double to a string gives ([5], [4.5],
    [1e+21]), [num_is_zero] whether it is [0] or [-0], and [num_positive]
    whether it is above zero.  The script does nothing else with a number,
    and a JSON body holds no [NaN]. *)
Record number : Type := mkNumber {
  num_text : string;
  num_is_zero : bool;
  num_positive : bool
}.

(** A decoded JSON value, and [undefined] for what is absent. *)
Inductive value : Type :=
| VUndefined
| VNull
| VBool (b : bool)
| VNum (n : number)
| VStr (s : string)
| VArr (elems : list value)
| VObj (props : list (string * value)).

Inductive exn : Type :=
| TypeError
| SyntaxError.

(** How an evaluation ends: with a value, with an exception, or outside
    what the embedding covers (a comparison that needs the number a string
    denotes, a slice of a string in UTF-16 code units).  [Unmodelled] is
    never caught: no statement is made about such a run. *)
Inductive completion (A : Type) : Type :=
| Normal (a : A)
| Throw (e : exn)
| Unmodelled.

Arguments Normal {A} a.
Arguments Throw {A} e.
Arguments Unmodelled {A}.

Definition cbind {A B : Type} (c : completion A) (k : A -> completion B)
  : completion B :=
  match c with
  | Normal a => k a
  | Throw e => Throw e
  | Unmodelled => Unmodelled
  end.

Declare Scope completion_scope.
Delimit Scope completion_scope with completion.
Notation "'let!' x ':=' c 'in' k" := (cbind c (fun x => k))
  (at level 10, x name, c at level 100, k at level 200) : completion_scope.

Module Js.

Local Open Scope completion_scope.

(** ToBoolean. *)
Definition truthy (v : value) : bool :=
  match v with
  | VUndefined | VNull => false
  | VBool b => b
  | VNum n => negb (num_is_zero n)
  | VStr s => negb (s =? EmptyString)%string
  | VArr _ | VObj _ => true
  end.

(** [a || b]. *)
Definition or_else (a b : value) : value := if truthy a then a else b.

(** A default parameter: it applies when the argument is [undefined]. *)
Definition default_to (d arg : value) : value :=
  match arg with
  | VUndefined => d
  | _ => arg
  end.

(** The own properties of a parsed object; the first entry of a name is
    the property. *)
Fixpoint lookup (k : string) (props : list (string * value)) : value :=
  match props with
  | [] => VUndefined
  | (k', v) :: rest => if (k =? k')%string then v else lookup k rest
  end.

Definition has_own (k : string) (props : list (string * value)) : bool :=
  existsb (fun p => (k =? fst p)%string) props.

(** [v.k] for the member names the script reads off decoded data
    ([text], [type], [books], [suggestions], [title], [author], [genre],
    [rating]): no prototype has them, so only an object can. *)
Definition member (v : value) (k : string) : completion value :=
  match v with
  | VUndefined | VNull => Throw TypeError
  | VObj props => Normal (lookup k props)
  | _ => Normal VUndefined
  end.

(** ToString.  An array joins its elements with commas, [null] and
    [undefined] elements as the empty string.  A parsed object is
    [[object Object]], unless it has an own [toString] member: that member
    is data, not a function, and the conversion then finds nothing to call. *)
Fixpoint ToString (v : value) : completion string :=
  match v with
  | VUndefined => Normal "undefined"%string
  | VNull => Normal "null"%string
  | VBool true => Normal "true"%string
  | VBool false => Normal "false"%string
  | VNum n => Normal (num_text n)
  | VStr s => Normal s
  | VArr elems =>
      (fix join (l : list value) : completion string :=
         match l with
         | [] => Normal EmptyString
         | e :: rest =>
             let! piece :=
               match e with
               | VUndefined | VNull => Normal EmptyString
               | _ => ToString e
               end in
             match rest with
             | [] => Normal piece
             | _ => let! more := join rest in
                    Normal (piece ++ "," ++ more)%string
             end
         end) elems
  | VObj props =>
      if has_own "toString" props then Throw TypeError
      else Normal "[object Object]"%string
  end.

(** Conversion to the [DOMString?] of [textContent]: [null] and
    [undefined] are the empty text. *)
Definition to_textContent (v : value) : completion string :=
  match v with
  | VUndefined | VNull => Normal EmptyString
  | _ => ToString v
  end.

(** Conversion to the [DOMString] of an input's [value], where [null] is
    the empty string. *)
Definition to_input_value (v : value) : completion string :=
  match v with
  | VNull => Normal EmptyString
  | _ => ToString v
  end.

(** [text.replace(/\n/g, '<br>')]: only a string has the method. *)
Definition replace_call (text : value) : completion string :=
  match text with
  | VStr s => Normal (replace_newlines s)
  | _ => Throw TypeError
  end.

(** [v.length > 0]. *)
Definition length_positive (v : value) : completion bool :=
  match v with
  | VUndefined | VNull => Throw TypeError
  | VBool _ | VNum _ => Normal false
  | VStr s => Normal (negb (s =? EmptyString)%string)
  | VArr elems => Normal (0 <? List.length elems)%nat
  | VObj props =>
      match lookup "length" props with
      | VUndefined | VNull => Normal false
      | VBool b => Normal b
      | VNum n => Normal (num_positive n)
      | VStr _ | VArr _ | VObj _ => Unmodelled
      end
  end.

(** [v.slice(0, 4)]. *)
Definition slice_0_4 (v : value) : completion value :=
  match v with
  | VArr elems => Normal (VArr (firstn 4 elems))
  | VStr _ => Unmodelled
  | _ => Throw TypeError
  end.

(** [v.forEach(f)] where [f] builds one thing per element: the things
    built, in order, unless the receiver is no array or [f] throws. *)
Definition forEach {A : Type} (v : value) (f : value -> completion A)
  : completion (list A) :=
  match v with
  | VArr elems =>
      (fix each (l : list value) : completion (list A) :=
         match l with
         | [] => Normal []
         | e :: rest =>
             let! a := f e in
             let! more := each rest in
             Normal (a :: more)
         end) elems
  | _ => Throw TypeError
  end.

End Js.

(* ================================================================= *)
(** ** The page *)

(** What an element holds after [createElement]: nothing, then the markup
    assigned to [innerHTML] or the text assigned to [textContent]. *)
Inductive content : Type :=
| Empty
| Html (markup : string)
| Text (text : string).

(** An element appended inside a message or a panel: a book card or a
    suggestion chip.  The click handler of a chip is the closure of
    [addSuggestions]; [onclick] holds the [suggestion] it captured. *)
Record Child : Type := mkChild {
  child_className : string;
  child_content : content;
  onclick : option value
}.

(** A child of [#chatMessages]. *)
Record Element : Type := mkElement {
  className : string;
  id : string;
  inner : content;
  children : list Child
}.

Record Page : Type := mkPage {
  chatMessages : list Element;   (* the children of #chatMessages *)
  messageInput : string          (* #messageInput.value *)
}.

(** One entry of [chatHistory]. *)
Record Exchange : Type := mkExchange {
  user : string;
  bot : value;
  timestamp : string
}.

(** A call of [fetch]; [body] is the object given to [JSON.stringify]. *)
Record Fetch : Type := mkFetch {
  url : string;
  method : string;
  contentType : option string;
  body : option value
}.

(** A function suspended at an [await] on a request: [sendMessage] with
    its local [message], or the promise chain of the startup load. *)
Inductive Pending : Type :=
| SendMessageAwait (message : string) (request : Fetch)
| StartupAwait (request : Fetch).

(** The callbacks given to [setTimeout]. *)
Inductive Callback : Type :=
| WelcomeSuggestions
| LoadedSuggestions (data : value).

Record Timer : Type := mkTimer {
  callback : Callback;
  delay : nat
}.

(** A line of the console: [console.error] with its arguments, or the
    report of an exception no handler caught. *)
Inductive LogLine : Type :=
| ConsoleError (label : option string) (error : exn)
| Uncaught (error : exn).

Record World : Type := mkWorld {
  page : Page;
  chatHistory : list Exchange;
  pending : list Pending;
  timers : list Timer;
  console : list LogLine
}.

Definition set_chatMessages (f : list Element -> list Element) (w : World)
  : World :=
  mkWorld (mkPage (f (chatMessages (page w))) (messageInput (page w)))
          (chatHistory w) (pending w) (timers w) (console w).

Definition set_messageInput (s : string) (w : World) : World :=
  mkWorld (mkPage (chatMessages (page w)) s)
          (chatHistory w) (pending w) (timers w) (console w).

Definition push_chatHistory (e : Exchange) (w : World) : World :=
  mkWorld (page w) (chatHistory w ++ [e]) (pending w) (timers w) (console w).

Definition set_pending (f : list Pending -> list Pending) (w : World)
  : World :=
  mkWorld (page w) (chatHistory w) (f (pending w)) (timers w) (console w).

Definition set_timers (f : list Timer -> list Timer) (w : World) : World :=
  mkWorld (page w) (chatHistory w) (pending w) (f (timers w)) (console w).

Definition log (l : LogLine) (w : World) : World :=
  mkWorld (page w) (chatHistory w) (pending w) (timers w) (console w ++ [l]).

(** The outcome of a request: [fetch] rejects, or it resolves with a
    response of some status whose [json()] gives a value or rejects. *)
Inductive Outcome : Type :=
| Rejected (e : exn)
| Responded (status : Z) (json : option value).

(* ================================================================= *)
(** ** Statements: a world in, a completion and a world out *)

Definition M (A : Type) : Type := World -> completion A * World.

Definition ret {A : Type} (a : A) : M A := fun w => (Normal a, w).

Definition bind {A B : Type} (m : M A) (k : A -> M B) : M B :=
  fun w =>
    match m w with
    | (Normal a, w') => k a w'
    | (Throw e, w') => (Throw e, w')
    | (Unmodelled, w') => (Unmodelled, w')
    end.

(** An expression that touches no state. *)
Definition eval {A : Type} (c : completion A) : M A := fun w => (c, w).

(** A state change that cannot fail. *)
Definition exec (f : World -> World) : M unit := fun w => (Normal tt, f w).

Definition read {A : Type} (f : World -> A) : M A := fun w => (Normal (f w), w).

(** [try { body } catch (error) { handler }]. *)
Definition try_catch {A : Type} (body : M A) (handler : exn -> M A) : M A :=
  fun w =>
    match body w with
    | (Throw e, w') => handler e w'
    | r => r
    end.

Declare Scope js_scope.
Delimit Scope js_scope with js.
Notation "x <- m ;; k" := (bind m (fun x => k))
  (at level 61, m at next level, right associativity) : js_scope.
Notation "m ;; k" := (bind m (fun _ => k))
  (at level 61, right associativity) : js_scope.

(* ================================================================= *)
(** ** The script *)

Module Chatbot.

Import Js.
Local Open Scope js_scope.
Local Open Scope completion_scope.

(** *** addSuggestions *)

(** The body of the loop: one chip per suggestion. *)
Definition chip (suggestion : value) : completion Child :=
  let! text := to_textContent suggestion in
  Normal (mkChild "suggestion-chip" (Text text) (Some suggestion)).

Definition suggestionsDiv (chips : list Child) : Element :=
  mkElement "suggestions" EmptyString Empty chips.

Definition addSuggestions (suggestions : value) : M unit :=
  chips <- eval (forEach suggestions chip) ;;
  exec (set_chatMessages (fun cs => cs ++ [suggestionsDiv chips])).

(** *** addMessage *)

Definition attr (name val : string) : string :=
  (name ++ "=" ++ dquote ++ val ++ dquote)%string.

(** The two conditional parts of a card. *)
Definition genre_part (book : value) : completion string :=
  let! genre := member book "genre" in
  if truthy genre then
    let! g := ToString genre in
    Normal ("<div "
            ++ attr "style" "color: #667eea; font-size: 12px; margin: 5px 0;"
            ++ ">" ++ g ++ "</div>")%string
  else Normal EmptyString.

Definition rating_part (book : value) : completion string :=
  let! rating := member book "rating" in
  if truthy rating then
    let! r := ToString rating in
    Normal ("<div " ++ attr "class" "book-rating" ++ ">⭐ " ++ r
            ++ "/5</div>")%string
  else Normal EmptyString.

Definition card_markup (title author genre rating : string) : string :=
  (newline ++ spaces 24
   ++ "<div " ++ attr "class" "book-title" ++ ">" ++ title ++ "</div>"
   ++ newline ++ spaces 24
   ++ "<div " ++ attr "class" "book-author" ++ ">by " ++ author ++ "</div>"
   ++ newline ++ spaces 24 ++ genre
   ++ newline ++ spaces 24 ++ rating
   ++ newline ++ spaces 20)%string.

(** The body of [books.forEach]: one card per book. *)
Definition bookCard (book : value) : completion Child :=
  let! title := member book "title" in
  let! title := ToString title in
  let! author := member book "author" in
  let! author := ToString author in
  let! genre := genre_part book in
  let! rating := rating_part book in
  Normal (mkChild "book-card" (Html (card_markup title author genre rating))
                  None).

Definition is_string (v : value) (s : string) : bool :=
  match v with
  | VStr s' => (s' =? s)%string
  | _ => false
  end.

Definition message_class (isUser : bool) : string :=
  ("message " ++ (if isUser then "user-message" else "bot-message"))%string.

(** [messageDiv] as it is when it is appended. *)
Definition messageDiv (text : value) (isUser : bool) (type books : value)
  : completion Element :=
  if is_string type "text" then
    let! html := replace_call text in
    Normal (mkElement (message_class isUser) EmptyString (Html html) [])
  else if is_string type "book_list" then
    let! heading := ToString text in
    let! cards := forEach books bookCard in
    Normal (mkElement (message_class isUser) EmptyString
                      (Html ("<strong>" ++ heading ++ "</strong>")) cards)
  else Normal (mkElement (message_class isUser) EmptyString Empty []).

Definition addMessage (text : value) (isUser : bool)
           (type books suggestions : value) : M Element :=
  let type := default_to (VStr "text") type in
  let books := default_to (VArr []) books in
  let suggestions := default_to (VArr []) suggestions in
  div <- eval (messageDiv text isUser type books) ;;
  exec (set_chatMessages (fun cs => cs ++ [div])) ;;
  some <- eval (length_positive suggestions) ;;
  (if some : bool then addSuggestions suggestions else ret tt) ;;
  ret div.

(** *** The typing indicator *)

Definition typing_dots : string :=
  (newline ++ spaces 16 ++ "<div " ++ attr "class" "typing-dot" ++ "></div>"
   ++ newline ++ spaces 16 ++ "<div " ++ attr "class" "typing-dot" ++ "></div>"
   ++ newline ++ spaces 16 ++ "<div " ++ attr "class" "typing-dot" ++ "></div>"
   ++ newline ++ spaces 12)%string.

Definition typingDiv : Element :=
  mkElement "typing-indicator" "typingIndicator" (Html typing_dots) [].

Definition showTypingIndicator : M unit :=
  exec (set_chatMessages (fun cs => cs ++ [typingDiv])).

(** [getElementById(i)] followed by [remove()] when it found an element:
    the first element of that id goes.  The search is among the elements the
    script created, the children of [#chatMessages]; it is the search of the
    document when the markup on the page holds no element of that id (see
    [remove_in_document] and [remove_in_document_inert]). *)
Fixpoint remove_by_id (i : string) (cs : list Element) : list Element :=
  match cs with
  | [] => []
  | e :: rest =>
      if (id e =? i)%string then rest else e :: remove_by_id i rest
  end.

Definition hideTypingIndicator : M unit :=
  exec (set_chatMessages (remove_by_id "typingIndicator")).

(** *** sendMessage *)

Definition message_request (message : string) : Fetch :=
  mkFetch "/api/chatbot/message" "POST" (Some "application/json"%string)
          (Some (VObj [("message"%string, VStr message)])).

Definition fallback : string :=
  "Sorry, I'm having trouble connecting. Please try again.".

(** Up to the [await] on [fetch]. *)
Definition sendMessage : M unit :=
  input <- read (fun w => messageInput (page w)) ;;
  let message := trim input in
  if (message =? EmptyString)%string then ret tt
  else
    addMessage (VStr message) true VUndefined VUndefined VUndefined ;;
    exec (set_messageInput EmptyString) ;;
    showTypingIndicator ;;
    exec (set_pending
            (fun p => p ++ [SendMessageAwait message
                                             (message_request message)])).

(** [await fetch(...)] then [await response.json()]. *)
Definition decoded (o : Outcome) : completion value :=
  match o with
  | Rejected e => Throw e
  | Responded _ None => Throw SyntaxError
  | Responded _ (Some data) => Normal data
  end.

(** The statements of the [try] block after [hideTypingIndicator()]:
    [data] is the decoded body, [now] the value of
    [new Date().toISOString()]. *)
Definition show_response (message : string) (data : value) (now : string)
  : M unit :=
  text <- eval (member data "text") ;;
  type <- eval (member data "type") ;;
  books <- eval (member data "books") ;;
  suggestions <- eval (member data "suggestions") ;;
  addMessage text false (or_else type (VStr "text"))
             (or_else books (VArr [])) (or_else suggestions (VArr [])) ;;
  bot <- eval (member data "text") ;;
  exec (push_chatHistory (mkExchange message bot now)).

(** The [try] block, from the [await] on: [o] is how the request went. *)
Definition sendMessage_try (message : string) (o : Outcome) (now : string)
  : M unit :=
  data <- eval (decoded o) ;;
  hideTypingIndicator ;;
  show_response message data now.

(** The [catch] block. *)
Definition sendMessage_catch (error : exn) : M unit :=
  exec (log (ConsoleError (Some "Error:"%string) error)) ;;
  hideTypingIndicator ;;
  addMessage (VStr fallback) false VUndefined VUndefined VUndefined ;;
  ret tt.

Definition sendMessage_resume (message : string) (o : Outcome)
           (now : string) : M unit :=
  try_catch (sendMessage_try message o now) sendMessage_catch.

Definition handleKeyPress (key : string) : M unit :=
  if (key =? "Enter")%string then sendMessage else ret tt.

(** The click handler of a chip. *)
Definition chip_onclick (suggestion : value) : M unit :=
  v <- eval (to_input_value suggestion) ;;
  exec (set_messageInput v) ;;
  sendMessage.

(** *** Startup *)

Definition welcome : list string :=
  [ "Recommend a fantasy book"; "Search for Stephen King";
    "Show top rated books"; "What genres do you have?" ]%string.

Definition suggestions_request : Fetch :=
  mkFetch "/api/chatbot/suggestions" "GET" None None.

(** The script runs on a page: the history is empty, the welcome timer is
    set and the suggestions are requested. *)
Definition startup (p : Page) : World :=
  mkWorld p [] [StartupAwait suggestions_request]
          [mkTimer WelcomeSuggestions 500] [].

(** The promise chain on the suggestions request. *)
Definition startup_resume (o : Outcome) : M unit :=
  try_catch
    (data <- eval (decoded o) ;;
     suggestions <- eval (member data "suggestions") ;;
     some <- (if truthy suggestions then eval (length_positive suggestions)
              else ret false) ;;
     if some : bool then
       exec (set_timers (fun t => t ++ [mkTimer (LoadedSuggestions data) 1000]))
     else ret tt)
    (fun error => exec (log (ConsoleError None error))).

Definition run_callback (c : Callback) : M unit :=
  match c with
  | WelcomeSuggestions => addSuggestions (VArr (map VStr welcome))
  | LoadedSuggestions data =>
      suggestions <- eval (member data "suggestions") ;;
      first <- eval (slice_0_4 suggestions) ;;
      addSuggestions first
  end.

End Chatbot.

(* ================================================================= *)
(** ** The event loop *)

(** What the page and the network can do to the script. *)
Inductive Event : Type :=
| UserTypes (s : string)                       (* the input holds [s] *)
| KeyPress (key : string)                      (* a key on the input *)
| ClickChip (panel chip : nat)                 (* by position *)
| Settles (n : nat) (o : Outcome) (now : string) (* the n-th pending request *)
| TimerFires (n : nat).                        (* the n-th timer *)

(** The state the specification names.  The script keeps no variable for
    it: it is awaiting a response when a [sendMessage] is suspended. *)
Inductive ConversationState : Type :=
| Idle
| AwaitingResponse.

Module EventLoop.

Import Chatbot.

(** One task: an exception that reaches the loop is reported and the
    state changes made before it stay. *)
Definition task (m : M unit) (w : World) : option World :=
  match m w with
  | (Normal _, w') => Some w'
  | (Throw e, w') => Some (log (Uncaught e) w')
  | (Unmodelled, _) => None
  end.

Fixpoint remove_nth {A : Type} (n : nat) (l : list A) : list A :=
  match n, l with
  | _, [] => []
  | O, _ :: rest => rest
  | S k, a :: rest => a :: remove_nth k rest
  end.

Definition handler_at (panel chip : nat) (w : World) : option value :=
  match nth_error (chatMessages (page w)) panel with
  | Some e =>
      match nth_error (children e) chip with
      | Some c => onclick c
      | None => None
      end
  | None => None
  end.

(** [None] when the event cannot happen in [w] (no such chip, request or
    timer) or when its run leaves the embedding. *)
Definition step (ev : Event) (w : World) : option World :=
  match ev with
  | UserTypes s => Some (set_messageInput s w)
  | KeyPress key => task (handleKeyPress key) w
  | ClickChip panel chip =>
      match handler_at panel chip w with
      | Some suggestion => task (chip_onclick suggestion) w
      | None => None
      end
  | Settles n o now =>
      match nth_error (pending w) n with
      | Some (SendMessageAwait message _) =>
          task (sendMessage_resume message o now)
               (set_pending (remove_nth n) w)
      | Some (StartupAwait _) =>
          task (startup_resume o) (set_pending (remove_nth n) w)
      | None => None
      end
  | TimerFires n =>
      match nth_error (timers w) n with
      | Some t => task (run_callback (callback t)) (set_timers (remove_nth n) w)
      | None => None
      end
  end.

Fixpoint run (evs : list Event) (w : World) : option World :=
  match evs with
  | [] => Some w
  | ev :: rest =>
      match step ev w with
      | Some w' => run rest w'
      | None => None
      end
  end.

Definition is_send (p : Pending) : bool :=
  match p with
  | SendMessageAwait _ _ => true
  | StartupAwait _ => false
  end.

Definition state (w : World) : ConversationState :=
  if existsb is_send (pending w) then AwaitingResponse else Idle.

(** The number of typing indicators on the page, among the elements the
    script created. *)
Definition indicators (cs : list Element) : nat :=
  List.length (filter (fun e => (id e =? "typingIndicator")%string) cs).

End EventLoop.

Import Js Chatbot EventLoop.

(* ================================================================= *)
(** ** The vocabulary of the statements *)

(** The transcript entry of a user message. *)
Definition user_entry (message : string) : Element :=
  mkElement "message user-message" EmptyString
            (Html (replace_newlines message)) [].

(** The world after [sendMessage] has sent [message]. *)
Definition submitted (message : string) (w : World) : World :=
  mkWorld (mkPage (chatMessages (page w) ++ [user_entry message; typingDiv])
                  EmptyString)
          (chatHistory w)
          (pending w ++ [SendMessageAwait message (message_request message)])
          (timers w) (console w).

(** The transcript entry of the apology. *)
Definition fallback_entry : Element :=
  mkElement "message bot-message" EmptyString
            (Html "Sorry, I'm having trouble connecting. Please try again.")
            [].

(** The world after the [catch] block has handled [e]. *)
Definition failed (e : exn) (w : World) : World :=
  mkWorld (mkPage (remove_by_id "typingIndicator" (chatMessages (page w))
                     ++ [fallback_entry])
                  (messageInput (page w)))
          (chatHistory w) (pending w) (timers w)
          (console w ++ [ConsoleError (Some "Error:"%string) e]).

Definition is_indicator (e : Element) : bool :=
  (id e =? "typingIndicator")%string.

(** The number of typing indicators shown. *)
Definition shown (w : World) : nat := indicators (chatMessages (page w)).





(** A run that leaves the pending requests alone and shows no indicator
    that was not shown before. *)
Definition quiet (w w' : World) : Prop :=
  pending w' = pending w /\ shown w' <= shown w.

Definition steady {A : Type} (m : M A) : Prop :=
  forall w : World, quiet w (snd (m w)).

(** The suspended sends. *)
Definition sends (ps : list Pending) : nat :=
  List.length (filter is_send ps).

(** The worlds the script can be in: it started on a page without an
    indicator and some events happened. *)
Definition reachable (w : World) : Prop :=
  exists (p : Page) (evs : list Event),
    indicators (chatMessages p) = 0 /\ run evs (startup p) = Some w.

(** No more indicators than suspended sends. *)
Definition balanced (w : World) : Prop := shown w <= sends (pending w).

(** The outcomes that end in the [catch] block: the request is rejected,
    the body is not JSON, the body is [null], or the body has no string
    [text] while its [type] is absent, falsy or ['text']. *)
Definition broken (o : Outcome) : Prop :=
  match o with
  | Rejected _ => True
  | Responded _ None => True
  | Responded _ (Some data) =>
      data = VNull \/
      exists text type : value,
        member data "text" = Normal text /\
        member data "type" = Normal type /\
        (forall s, text <> VStr s) /\
        (truthy type = false \/ type = VStr "text")
  end.

(** The page the examples start from: an empty transcript. *)
Definition fresh : World := startup (mkPage [] EmptyString).

(** A book as the specification describes it: [genre] and [rating] are
    optional. *)
Record BookSummary : Type := mkBook {
  title : string;
  author : string;
  genre : option string;
  rating : option number
}.

Definition optional {A : Type} (f : A -> value) (o : option A) : value :=
  match o with
  | Some a => f a
  | None => VUndefined
  end.

(** The decoded object [v] carries the book [b]: its members of these four
    names are those of [b], an absent one being [undefined]. *)
Definition represents (v : value) (b : BookSummary) : Prop :=
  exists props : list (string * value),
    v = VObj props /\
    lookup "title" props = VStr (title b) /\
    lookup "author" props = VStr (author b) /\
    lookup "genre" props = optional VStr (genre b) /\
    lookup "rating" props = optional VNum (rating b).

(** The markup of a card, written out: the title and the author in their
    elements, then the places of the genre and of the rating. *)
Definition quoted (s : string) : string := (dquote ++ s ++ dquote)%string.

Definition genre_line (g : string) : string :=
  ("<div style=" ++ quoted "color: #667eea; font-size: 12px; margin: 5px 0;"
   ++ ">" ++ g ++ "</div>")%string.

Definition rating_line (r : number) : string :=
  ("<div class=" ++ quoted "book-rating" ++ ">⭐ " ++ num_text r
   ++ "/5</div>")%string.

Definition card_text (title author genre rating : string) : string :=
  (newline ++ spaces 24
   ++ "<div class=" ++ quoted "book-title" ++ ">" ++ title ++ "</div>"
   ++ newline ++ spaces 24
   ++ "<div class=" ++ quoted "book-author" ++ ">by " ++ author ++ "</div>"
   ++ newline ++ spaces 24 ++ genre
   ++ newline ++ spaces 24 ++ rating
   ++ newline ++ spaces 20)%string.

Definition card (b : BookSummary) (genre_shown : option string)
           (rating_shown : option number) : Child :=
  mkChild "book-card"
          (Html (card_text (title b) (author b)
                   (match genre_shown with
                    | Some g => genre_line g
                    | None => EmptyString
                    end)
                   (match rating_shown with
                    | Some r => rating_line r
                    | None => EmptyString
                    end)))
          None.

(** The card in the specification's words: genre and rating are shown
    exactly when they are present. *)
Definition card_specified (b : BookSummary) : Child :=
  card b (genre b) (rating b).

(** The card with the tests of the script: an empty genre and a rating of
    zero count as absent. *)
Definition card_rendered (b : BookSummary) : Child :=
  card b
       (match genre b with
        | Some g => if (g =? EmptyString)%string then None else Some g
        | None => None
        end)
       (match rating b with
        | Some r => if num_is_zero r then None else Some r
        | None => None
        end).

(** The transcript entry of a book list. *)
Definition book_list_entry (heading : string) (cards : list Child) : Element :=
  mkElement "message bot-message" EmptyString
            (Html ("<strong>" ++ heading ++ "</strong>")) cards.

(** The transcript entry of a plain bot message. *)
Definition bot_entry (text : string) : Element :=
  mkElement "message bot-message" EmptyString
            (Html (replace_newlines text)) [].

Definition markup_of (c : Child) : string :=
  match child_content c with
  | Html m => m
  | _ => EmptyString
  end.

(** The text a chip shows. *)
Definition label_of (c : Child) : string :=
  match child_content c with
  | Text t => t
  | _ => EmptyString
  end.

(** The numbers of the examples. *)
Definition five : number := mkNumber "5" false true.

Definition zero : number := mkNumber "0" true false.

Definition four_and_a_half : number := mkNumber "4.5" false true.

(** The two books of the specification's example, as sent and as meant. *)
Definition dune_json : value :=
  VObj [("title", VStr "Dune"); ("author", VStr "Frank Herbert");
        ("rating", VNum five)]%string.

Definition orwell_json : value :=
  VObj [("title", VStr "1984"); ("author", VStr "George Orwell")]%string.

Definition dune : BookSummary := mkBook "Dune" "Frank Herbert" None (Some five).

Definition orwell : BookSummary := mkBook "1984" "George Orwell" None None.

(** The chip of a string suggestion. *)
Definition chip_for (label : string) : Child :=
  mkChild "suggestion-chip" (Text label) (Some (VStr label)).

(** The world once the welcome timer has fired on a fresh page. *)
Definition welcomed : World :=
  set_chatMessages (fun cs => cs ++ [suggestionsDiv (map chip_for welcome)])
                   (set_timers (remove_nth 0) fresh).

(* ================================================================= *)
(** ** The vocabulary of the further properties *)

(** The transcript: the children of [#chatMessages] other than typing
    indicators. *)
Definition transcript (cs : list Element) : list Element :=
  filter (fun e => negb (is_indicator e)) cs.

Definition entries (w : World) : list Element :=
  transcript (chatMessages (page w)).

(** A statement keeps a relation between the world it starts in and the
    world it ends in. *)
Definition keeps {A : Type} (R : World -> World -> Prop) (m : M A) : Prop :=
  forall w : World, R w (snd (m w)).

Definition same_history (w w' : World) : Prop :=
  chatHistory w' = chatHistory w.

Definition transcript_grows (w w' : World) : Prop :=
  exists more : list Element, entries w' = entries w ++ more.

Definition is_settles (ev : Event) : bool :=
  match ev with
  | Settles _ _ _ => true
  | _ => false
  end.

(** The number of requests that settle in a sequence of events. *)
Definition settled (evs : list Event) : nat :=
  List.length (filter is_settles evs).

(** A suspended function as the script leaves it: a send holds a message
    that is not empty and the POST of that message, the startup load holds
    the GET of the suggestions. *)
Definition as_issued (p : Pending) : Prop :=
  match p with
  | SendMessageAwait message request =>
      message <> EmptyString /\
      request = mkFetch "/api/chatbot/message" "POST"
                        (Some "application/json"%string)
                        (Some (VObj [("message"%string, VStr message)]))
  | StartupAwait request =>
      request = mkFetch "/api/chatbot/suggestions" "GET" None None
  end.

(** A string without line feed. *)
Definition one_line (s : string) : Prop :=
  includes newline s = false.

(** [lines.join(sep)]. *)
Fixpoint join (sep : string) (lines : list string) : string :=
  match lines with
  | [] => EmptyString
  | [l] => l
  | l :: rest => (l ++ sep ++ join sep rest)%string
  end.

(** A response object of the given members. *)
Definition json_response (status : Z) (props : list (string * value))
  : Outcome :=
  Responded status (Some (VObj props)).

(** The panel of string suggestions, written out: one chip per label, in
    order. *)
Definition panel (labels : list string) : Element :=
  mkElement "suggestions" EmptyString Empty (map chip_for labels).

(** The suggestion panel of string labels, if there are any. *)
Definition with_panel (labels : list string) (w : World) : World :=
  match labels with
  | [] => w
  | _ => set_chatMessages (fun cs => cs ++ [panel labels]) w
  end.


Definition same_input (w w' : World) : Prop :=
  messageInput (page w') = messageInput (page w).

(** The events that come from the network and the clock, not the user. *)
Definition in_background (ev : Event) : bool :=
  match ev with
  | Settles _ _ _ | TimerFires _ => true
  | _ => false
  end.

(** An exchange recorded under a message that is not empty. *)
Definition named (e : Exchange) : Prop := user e <> EmptyString.

(** Books no card can be made of: the value is truthy and no array, or it
    is an array in which a [null] follows well-formed books. *)
Definition unusable_books (bs : value) : Prop :=
  (truthy bs = true /\ forall vs, bs <> VArr vs) \/
  (exists (good : list value) (books : list BookSummary) (rest : list value),
     bs = VArr (good ++ VNull :: rest) /\ Forall2 represents good books).



(* ================================================================= *)
(** ** Pages without foreign markup *)

(** The tags of the script's own templates.  None carries an id or a
    handler, and none changes how the text after it is read. *)
Definition script_tags : list string :=
  [ "<br>"; "<strong>"; "</strong>"; "</div>";
    "<div class=" ++ quoted "book-title" ++ ">";
    "<div class=" ++ quoted "book-author" ++ ">";
    "<div style=" ++ quoted "color: #667eea; font-size: 12px; margin: 5px 0;"
      ++ ">";
    "<div class=" ++ quoted "book-rating" ++ ">";
    "<div class=" ++ quoted "typing-dot" ++ ">" ]%string.

Definition opens_tag (a : ascii) : bool := Ascii.eqb a "<".

(** Markup in which every [<] starts one of those tags: parsed, it is text
    and elements of the script's templates, so it brings no element with an
    id into the document and runs nothing. *)
Fixpoint plain_markup (s : string) : bool :=
  match s with
  | EmptyString => true
  | String a r =>
      (if opens_tag a then existsb (fun t => prefix t s) script_tags
       else true)
      && plain_markup r
  end.

(** Text without any [<]. *)
Definition tagless (s : string) : bool := negb (includes "<" s).

Definition plain_content (c : content) : bool :=
  match c with
  | Html m => plain_markup m
  | Empty | Text _ => true
  end.

Definition inert_element (e : Element) : bool :=
  plain_content (inner e)
  && forallb (fun c => plain_content (child_content c)) (children e).

Definition inert_page (cs : list Element) : bool := forallb inert_element cs.

(** The page of [w] holds no markup but text and the script's own tags.
    On such a page the elements with an id are those the script created. *)
Definition inert (w : World) : Prop :=
  inert_page (chatMessages (page w)) = true.

(** *** The search of the whole document

    [take_out] stands for the browser: [take_out i m] is [Some m'] when
    what the markup [m] parses to holds an element of id [i], and [m'] is
    the markup of what is left once the first such element is removed. *)





(* ================================================================= *)
(** ** Trimming *)

Lemma drop_ws_white (w s : string) :
  In w white_space -> drop_ws ws2 ws3 (w ++ s) = drop_ws ws2 ws3 s.
Proof.
  unfold white_space; simpl.
  intros H.
  repeat (destruct H as [<- | H]; [ reflexivity | ]).
  contradiction.
Qed.

Lemma trimStart_blank (s : string) : blank s -> trimStart s = EmptyString.
Proof.
  unfold trimStart.
  induction 1 as [ | w s Hw _ IH ]; [ reflexivity | ].
  rewrite drop_ws_white by assumption.
  exact IH.
Qed.

Lemma trim_blank (s : string) : blank s -> trim s = EmptyString.
Proof.
  intros H. unfold trim. rewrite (trimStart_blank s H). reflexivity.
Qed.


(* ================================================================= *)
(** ** What a submission does *)


Lemma sendMessage_spec (w : World) :
  sendMessage w =
  (Normal tt,
   let message := trim (messageInput (page w)) in
   if (message =? EmptyString)%string then w else submitted message w).
Proof.
  unfold sendMessage, bind, read. cbv beta iota zeta.
  destruct (trim (messageInput (page w)) =? EmptyString)%string eqn:E.
  - reflexivity.
  - cbn. unfold submitted, set_chatMessages. cbn.
    rewrite <- app_assoc. reflexivity.
Qed.

(* ================================================================= *)
(** ** The typing indicator *)


Lemma indicators_app (cs ds : list Element) :
  indicators (cs ++ ds) = indicators cs + indicators ds.
Proof.
  unfold indicators. rewrite filter_app, length_app. reflexivity.
Qed.

Lemma indicators_snoc (cs : list Element) (e : Element) :
  indicators (cs ++ [e]) =
  indicators cs + (if is_indicator e then 1 else 0).
Proof.
  rewrite indicators_app. f_equal.
  unfold indicators, is_indicator. simpl.
  destruct (id e =? "typingIndicator")%string; reflexivity.
Qed.

Lemma indicators_remove (cs : list Element) :
  indicators (remove_by_id "typingIndicator" cs) = pred (indicators cs).
Proof.
  unfold indicators.
  induction cs as [ | e cs IH ]; [ reflexivity | ].
  simpl. destruct (id e =? "typingIndicator")%string eqn:E.
  - reflexivity.
  - simpl. rewrite E. exact IH.
Qed.

(** [hide()] with no indicator on the page changes nothing. *)
Lemma remove_absent (cs : list Element) :
  indicators cs = 0 -> remove_by_id "typingIndicator" cs = cs.
Proof.
  unfold indicators.
  induction cs as [ | e cs IH ]; [ reflexivity | ].
  simpl. destruct (id e =? "typingIndicator")%string eqn:E.
  - discriminate.
  - intros H. rewrite (IH H). reflexivity.
Qed.

(** The indicator that goes is the first one. *)
Lemma remove_after_none (cs ds : list Element) :
  indicators cs = 0 ->
  remove_by_id "typingIndicator" (cs ++ ds) = cs ++ remove_by_id "typingIndicator" ds.
Proof.
  unfold indicators.
  induction cs as [ | e cs IH ]; [ reflexivity | ].
  simpl. destruct (id e =? "typingIndicator")%string eqn:E.
  - discriminate.
  - intros H. rewrite (IH H). reflexivity.
Qed.






(* ================================================================= *)
(** ** Statements that keep the page quiet *)

Create HintDb steady.

Lemma quiet_refl (w : World) : quiet w w.
Proof. split; [ reflexivity | apply Nat.le_refl ]. Qed.

Lemma quiet_trans (a b c : World) : quiet a b -> quiet b c -> quiet a c.
Proof.
  intros [P1 S1] [P2 S2]. split.
  - congruence.
  - eapply Nat.le_trans; eassumption.
Qed.

Lemma steady_ret {A : Type} (a : A) : steady (ret a).
Proof. intros w. apply quiet_refl. Qed.

Lemma steady_eval {A : Type} (c : completion A) : steady (eval c).
Proof. intros w. apply quiet_refl. Qed.

Lemma steady_read {A : Type} (f : World -> A) : steady (read f).
Proof. intros w. apply quiet_refl. Qed.

Lemma steady_exec (f : World -> World) :
  (forall w, quiet w (f w)) -> steady (exec f).
Proof. intros H w. apply H. Qed.

Lemma steady_bind {A B : Type} (m : M A) (k : A -> M B) :
  steady m -> (forall a, steady (k a)) -> steady (bind m k).
Proof.
  intros Hm Hk w. unfold bind.
  specialize (Hm w).
  destruct (m w) as [[a | e | ] w1]; simpl in Hm; simpl.
  - eapply quiet_trans; [ exact Hm | apply Hk ].
  - exact Hm.
  - exact Hm.
Qed.

Lemma steady_try_catch {A : Type} (body : M A) (handler : exn -> M A) :
  steady body -> (forall e, steady (handler e)) ->
  steady (try_catch body handler).
Proof.
  intros Hb Hh w. unfold try_catch.
  specialize (Hb w).
  destruct (body w) as [[a | e | ] w1]; simpl in Hb; simpl.
  - exact Hb.
  - eapply quiet_trans; [ exact Hb | apply Hh ].
  - exact Hb.
Qed.

Lemma steady_if {A : Type} (b : bool) (m n : M A) :
  steady m -> steady n -> steady (if b then m else n).
Proof. destruct b; auto. Qed.

Lemma quiet_append (e : Element) (w : World) :
  is_indicator e = false ->
  quiet w (set_chatMessages (fun cs => cs ++ [e]) w).
Proof.
  intros H. split; [ reflexivity | ].
  unfold shown. cbn -[indicators]. rewrite indicators_snoc, H. lia.
Qed.

Lemma quiet_hide (w : World) :
  quiet w (set_chatMessages (remove_by_id "typingIndicator") w).
Proof.
  split; [ reflexivity | ].
  unfold shown. cbn -[indicators].
  rewrite (indicators_remove (chatMessages (page w))). lia.
Qed.

Lemma quiet_push (e : Exchange) (w : World) : quiet w (push_chatHistory e w).
Proof. split; [ reflexivity | apply Nat.le_refl ]. Qed.

Lemma quiet_log (l : LogLine) (w : World) : quiet w (log l w).
Proof. split; [ reflexivity | apply Nat.le_refl ]. Qed.

Lemma quiet_set_timers (f : list Timer -> list Timer) (w : World) :
  quiet w (set_timers f w).
Proof. split; [ reflexivity | apply Nat.le_refl ]. Qed.

#[local] Hint Resolve steady_ret steady_eval steady_read steady_exec
  steady_bind steady_try_catch steady_if quiet_append quiet_hide quiet_push
  quiet_log quiet_set_timers : steady.

Lemma steady_addSuggestions (suggestions : value) :
  steady (addSuggestions suggestions).
Proof.
  unfold addSuggestions. auto 6 with steady.
Qed.

#[local] Hint Resolve steady_addSuggestions : steady.

Lemma messageDiv_no_id (text : value) (isUser : bool) (type books : value)
      (e : Element) :
  messageDiv text isUser type books = Normal e -> is_indicator e = false.
Proof.
  unfold messageDiv.
  destruct (is_string type "text").
  - destruct (replace_call text); simpl; intros H; inversion H; reflexivity.
  - destruct (is_string type "book_list").
    + destruct (ToString text); simpl; try discriminate.
      destruct (forEach books bookCard); simpl; intros H; inversion H;
        reflexivity.
    + intros H; inversion H; reflexivity.
Qed.

Lemma steady_bind_eval {A B : Type} (c : completion A) (k : A -> M B) :
  (forall a, c = Normal a -> steady (k a)) -> steady (bind (eval c) k).
Proof.
  intros H w. unfold bind, eval.
  destruct c as [a | e | ]; simpl.
  - apply H. reflexivity.
  - apply quiet_refl.
  - apply quiet_refl.
Qed.

Lemma steady_addMessage (text : value) (isUser : bool)
      (type books suggestions : value) :
  steady (addMessage text isUser type books suggestions).
Proof.
  unfold addMessage. cbv zeta.
  apply steady_bind_eval. intros e E.
  pose proof (messageDiv_no_id _ _ _ _ _ E) as He.
  auto 8 with steady.
Qed.

#[local] Hint Resolve steady_addMessage : steady.

Lemma steady_hide : steady hideTypingIndicator.
Proof. unfold hideTypingIndicator. auto with steady. Qed.

#[local] Hint Resolve steady_hide : steady.

Lemma steady_startup_resume (o : Outcome) : steady (startup_resume o).
Proof. unfold startup_resume. auto 10 with steady. Qed.

Lemma steady_run_callback (c : Callback) : steady (run_callback c).
Proof. destruct c; unfold run_callback; auto 8 with steady. Qed.

Lemma steady_show_response (message : string) (data : value)
      (now : string) : steady (show_response message data now).
Proof. unfold show_response. auto 12 with steady. Qed.

Lemma sendMessage_catch_spec (e : exn) (w : World) :
  sendMessage_catch e w = (Normal tt, failed e w).
Proof. reflexivity. Qed.

Lemma steady_sendMessage_catch (e : exn) : steady (sendMessage_catch e).
Proof. unfold sendMessage_catch. auto 8 with steady. Qed.

(** A request that fails before the body is decoded. *)
Lemma sendMessage_resume_undecoded (message : string) (o : Outcome)
      (now : string) (e : exn) (w : World) :
  decoded o = Throw e ->
  sendMessage_resume message o now w = (Normal tt, failed e w).
Proof.
  intros D.
  unfold sendMessage_resume, try_catch, sendMessage_try, bind, eval.
  rewrite D. reflexivity.
Qed.

(** A request whose body is decoded: the indicator is hidden and the
    response shown; the [catch] block runs if that throws. *)
Lemma sendMessage_resume_decoded (message : string) (o : Outcome)
      (now : string) (data : value) (w : World) :
  decoded o = Normal data ->
  sendMessage_resume message o now w =
  try_catch (show_response message data now) sendMessage_catch
            (set_chatMessages (remove_by_id "typingIndicator") w).
Proof.
  intros D.
  unfold sendMessage_resume, try_catch, sendMessage_try.
  unfold bind at 1. unfold eval at 1. rewrite D.
  reflexivity.
Qed.

Lemma decoded_modelled (o : Outcome) : decoded o <> Unmodelled.
Proof. destruct o as [e | status [data | ]]; discriminate. Qed.

(** Whatever the outcome, an indicator goes and none comes. *)
Lemma sendMessage_resume_hides (message : string) (o : Outcome)
      (now : string) (w : World) :
  let w' := snd (sendMessage_resume message o now w) in
  pending w' = pending w /\ shown w' <= pred (shown w).
Proof.
  cbv zeta.
  destruct (decoded o) as [data | e | ] eqn:D.
  - rewrite (sendMessage_resume_decoded _ _ _ _ _ D).
    set (w1 := set_chatMessages (remove_by_id "typingIndicator") w).
    assert (H1 : shown w1 = pred (shown w)).
    { unfold shown, w1. cbn -[indicators]. apply indicators_remove. }
    destruct (steady_try_catch (show_response message data now)
                sendMessage_catch
                (steady_show_response message data now)
                steady_sendMessage_catch w1) as [Hp Hs].
    rewrite <- H1. split; assumption.
  - rewrite (sendMessage_resume_undecoded _ _ _ _ _ D).
    split; [ reflexivity | ].
    unfold shown, failed. cbn -[indicators].
    rewrite indicators_snoc, indicators_remove. cbn. lia.
  - exfalso. exact (decoded_modelled o D).
Qed.

(* ================================================================= *)
(** ** Indicators and suspended sends *)

Lemma sends_snoc (ps : list Pending) (p : Pending) :
  sends (ps ++ [p]) = sends ps + (if is_send p then 1 else 0).
Proof.
  unfold sends. rewrite filter_app, length_app. simpl.
  destruct (is_send p); reflexivity.
Qed.

Lemma sends_remove_nth (n : nat) (ps : list Pending) (p : Pending) :
  nth_error ps n = Some p ->
  sends ps = sends (remove_nth n ps) + (if is_send p then 1 else 0).
Proof.
  unfold sends. revert n.
  induction ps as [ | q ps IH ]; intros [ | n ] H; simpl in H;
    try discriminate.
  - inversion H; subst. simpl. destruct (is_send p); simpl; lia.
  - simpl. specialize (IH n H).
    destruct (is_send q); simpl; lia.
Qed.

Lemma shown_submitted (message : string) (w : World) :
  shown (submitted message w) = S (shown w).
Proof.
  unfold shown, submitted. cbn -[indicators].
  rewrite indicators_app. cbn. lia.
Qed.

Lemma balanced_sendMessage (w : World) :
  balanced w -> balanced (snd (sendMessage w)).
Proof.
  intros H. rewrite sendMessage_spec. cbv zeta. cbn [snd].
  destruct (trim (messageInput (page w)) =? EmptyString)%string;
    [ assumption | ].
  unfold balanced in *. rewrite shown_submitted.
  unfold submitted. cbn [pending]. rewrite sends_snoc. cbn. lia.
Qed.

Lemma task_sendMessage (w : World) :
  task sendMessage w = Some (snd (sendMessage w)).
Proof. unfold task. rewrite sendMessage_spec. reflexivity. Qed.

Lemma task_quiet (m : M unit) (w w' : World) :
  steady m -> task m w = Some w' -> quiet w w'.
Proof.
  intros Hm. unfold task. specialize (Hm w).
  destruct (m w) as [[[] | e | ] w1]; simpl in Hm; intros H;
    inversion H; subst.
  - exact Hm.
  - eapply quiet_trans; [ exact Hm | apply quiet_log ].
Qed.

Lemma shown_log (l : LogLine) (w : World) : shown (log l w) = shown w.
Proof. reflexivity. Qed.

Lemma step_balanced (ev : Event) (w w' : World) :
  balanced w -> step ev w = Some w' -> balanced w'.
Proof.
  intros B. destruct ev as [s | key | panel chip | n o now | n ]; simpl.
  - intros H; inversion H; subst. exact B.
  - unfold handleKeyPress. destruct (key =? "Enter")%string.
    + rewrite task_sendMessage. intros H; inversion H; subst.
      apply balanced_sendMessage, B.
    + intros H; inversion H; subst. exact B.
  - destruct (handler_at panel chip w) as [suggestion | ]; [ | discriminate ].
    unfold chip_onclick, task. unfold bind at 1. unfold eval at 1.
    destruct (to_input_value suggestion) as [v | e | ]; try discriminate.
    + unfold bind at 1. unfold exec at 1.
      rewrite sendMessage_spec. intros H; inversion H; subst.
      change (balanced (snd (Normal tt,
        let message := trim (messageInput (page (set_messageInput v w))) in
        if (message =? EmptyString)%string then set_messageInput v w
        else submitted message (set_messageInput v w)))).
      rewrite <- sendMessage_spec. apply balanced_sendMessage. exact B.
    + intros H; inversion H; subst. exact B.
  - destruct (nth_error (pending w) n) as [[message req | req] | ] eqn:E;
      [ | | discriminate ].
    + unfold task.
      pose proof (sendMessage_resume_hides message o now
                    (set_pending (remove_nth n) w)) as [Hp Hs].
      pose proof (sends_remove_nth _ _ _ E) as Hn. cbn in Hn.
      destruct (sendMessage_resume message o now
                  (set_pending (remove_nth n) w)) as [[[] | e | ] w1];
        try discriminate; cbn [snd] in Hp, Hs;
        intros H; inversion H; subst; unfold balanced in *;
        rewrite ?shown_log; cbn [pending log]; rewrite Hp; cbn [pending set_pending];
        change (shown (set_pending (remove_nth n) w)) with (shown w) in Hs;
        lia.
    + intros H.
      pose proof (task_quiet _ _ _ (steady_startup_resume o) H) as [Hp Hs].
      pose proof (sends_remove_nth _ _ _ E) as Hn. cbn in Hn.
      unfold balanced in *. rewrite Hp. cbn [pending set_pending].
      change (shown (set_pending (remove_nth n) w)) with (shown w) in Hs.
      lia.
  - destruct (nth_error (timers w) n) as [t | ]; [ | discriminate ].
    intros H.
    pose proof (task_quiet _ _ _ (steady_run_callback (callback t)) H)
      as [Hp Hs].
    unfold balanced in *. rewrite Hp. cbn [pending set_timers].
    change (shown (set_timers (remove_nth n) w)) with (shown w) in Hs.
    lia.
Qed.

Lemma run_balanced (evs : list Event) (w w' : World) :
  balanced w -> run evs w = Some w' -> balanced w'.
Proof.
  revert w. induction evs as [ | ev evs IH ]; simpl; intros w B H.
  - inversion H; subst. exact B.
  - destruct (step ev w) as [w1 | ] eqn:E; [ | discriminate ].
    apply (IH w1); [ | exact H ].
    eapply step_balanced; eassumption.
Qed.

(** In a world the script can be in, there are no more indicators than
    suspended sends. *)
Lemma reachable_balanced (w : World) : reachable w -> balanced w.
Proof.
  intros (p & evs & Hp & Hr).
  apply (run_balanced evs (startup p)); [ | exact Hr ].
  unfold balanced, shown. cbn -[indicators]. rewrite Hp. apply Nat.le_0_l.
Qed.

Lemma idle_no_sends (w : World) : state w = Idle -> sends (pending w) = 0.
Proof.
  unfold state, sends.
  induction (pending w) as [ | p ps IH ]; [ reflexivity | ].
  simpl. destruct (is_send p); simpl.
  - discriminate.
  - exact IH.
Qed.

(** An idle world shows no indicator. *)
Lemma idle_hidden (w : World) : reachable w -> state w = Idle -> shown w = 0.
Proof.
  intros R I. pose proof (reachable_balanced w R) as B.
  unfold balanced in B. rewrite (idle_no_sends w I) in B. lia.
Qed.

(* ================================================================= *)
(** ** Sequences of calls and positions in lists *)





Lemma nth_error_snoc {A : Type} (l : list A) (a : A) :
  nth_error (l ++ [a]) (List.length l) = Some a.
Proof.
  rewrite nth_error_app2 by apply Nat.le_refl.
  rewrite Nat.sub_diag. reflexivity.
Qed.

Lemma remove_nth_snoc {A : Type} (l : list A) (a : A) :
  remove_nth (List.length l) (l ++ [a]) = l.
Proof.
  induction l as [ | b l IH ]; [ reflexivity | ].
  simpl. rewrite IH. reflexivity.
Qed.

Lemma state_idle_sends (w : World) : sends (pending w) = 0 -> state w = Idle.
Proof.
  unfold state, sends.
  induction (pending w) as [ | p ps IH ]; [ reflexivity | ].
  simpl. destruct (is_send p); simpl.
  - discriminate.
  - exact IH.
Qed.

(** With at most one indicator on the page, a second [hide()] finds none. *)
Lemma remove_twice (cs : list Element) :
  indicators cs <= 1 ->
  remove_by_id "typingIndicator" (remove_by_id "typingIndicator" cs) =
  remove_by_id "typingIndicator" cs.
Proof.
  intros H. apply remove_absent.
  rewrite indicators_remove. lia.
Qed.

(* ================================================================= *)
(** ** Responses that cannot be shown *)

Lemma replace_call_not_string (text : value) :
  (forall s, text <> VStr s) -> replace_call text = Throw TypeError.
Proof.
  intros H. destruct text; try reflexivity.
  exfalso. eapply H. reflexivity.
Qed.

Lemma or_else_text (type : value) :
  truthy type = false \/ type = VStr "text" ->
  or_else type (VStr "text") = VStr "text".
Proof.
  unfold or_else. intros [H | ->].
  - rewrite H. reflexivity.
  - reflexivity.
Qed.

(** A body with no string [text], shown as plain text, throws before
    anything is appended. *)
Lemma show_response_throws (message : string) (data : value) (now : string)
      (w : World) :
  broken (Responded 0 (Some data)) ->
  show_response message data now w = (Throw TypeError, w).
Proof.
  intros [-> | (text & type & Ht & Hy & Hs & Hp)].
  - reflexivity.
  - unfold show_response.
    assert (Hb : exists b, member data "books" = Normal b).
    { destruct data; try discriminate; eexists; reflexivity. }
    assert (Hg : exists g, member data "suggestions" = Normal g).
    { destruct data; try discriminate; eexists; reflexivity. }
    destruct Hb as [b Hb]. destruct Hg as [g Hg].
    unfold bind, eval. rewrite Ht, Hy, Hb, Hg.
    unfold addMessage. rewrite (or_else_text type Hp).
    cbv zeta. unfold bind, eval. cbn [default_to].
    unfold messageDiv. cbn [is_string String.eqb Ascii.eqb Bool.eqb].
    rewrite (replace_call_not_string text Hs). reflexivity.
Qed.

Lemma shown_failed (e : exn) (w : World) : shown w <= 1 -> shown (failed e w) = 0.
Proof.
  intros S1. unfold shown, failed. cbn -[indicators remove_by_id].
  rewrite indicators_snoc, indicators_remove. unfold shown in S1.
  cbn. lia.
Qed.

(* ================================================================= *)
(** ** Book cards *)

Lemma bookCard_represents (v : value) (b : BookSummary) :
  represents v b -> bookCard v = Normal (card_rendered b).
Proof.
  intros (props & -> & Ht & Ha & Hg & Hr).
  unfold bookCard, genre_part, rating_part, member, card_rendered, card.
  rewrite Ht, Ha, Hg, Hr.
  destruct b as [t a [g | ] [r | ]]; cbn [optional genre rating title author];
    cbn [cbind ToString truthy].
  - destruct (g =? EmptyString)%string, (num_is_zero r); reflexivity.
  - destruct (g =? EmptyString)%string; reflexivity.
  - destruct (num_is_zero r); reflexivity.
  - reflexivity.
Qed.

Lemma forEach_books (vs : list value) (books : list BookSummary) :
  Forall2 represents vs books ->
  forEach (VArr vs) bookCard = Normal (map card_rendered books).
Proof.
  unfold forEach.
  induction 1 as [ | v b vs books Hv _ IH ]; [ reflexivity | ].
  rewrite (bookCard_represents v b Hv). cbn [cbind map].
  rewrite IH. reflexivity.
Qed.

(* ================================================================= *)
(** ** Members of a decoded object *)

Lemma lookup_absent (k : string) (props : list (string * value)) :
  has_own k props = false -> lookup k props = VUndefined.
Proof.
  unfold has_own.
  induction props as [ | [k' v] props IH ]; [ reflexivity | ].
  simpl. destruct (k =? k')%string; simpl.
  - discriminate.
  - exact IH.
Qed.

(** What [show_response] does is settled by the four arguments it hands
    to [addMessage]. *)
Lemma show_response_object (message : string) (props : list (string * value))
      (now : string) (w : World) :
  show_response message (VObj props) now w =
  bind (addMessage (lookup "text" props) false
                   (or_else (lookup "type" props) (VStr "text"))
                   (or_else (lookup "books" props) (VArr []))
                   (or_else (lookup "suggestions" props) (VArr [])))
       (fun _ => exec (push_chatHistory
                         (mkExchange message (lookup "text" props) now))) w.
Proof. reflexivity. Qed.

Lemma addMessage_plain (text : string) (w : World) :
  addMessage (VStr text) false (VStr "text") (VArr []) (VArr []) w =
  (Normal (bot_entry text),
   set_chatMessages (fun cs => cs ++ [bot_entry text]) w).
Proof. reflexivity. Qed.

(* ================================================================= *)
(** ** Suggestion panels *)

Lemma forEach_strings (labels : list string) :
  forEach (VArr (map VStr labels)) chip = Normal (map chip_for labels).
Proof.
  unfold forEach.
  induction labels as [ | l labels IH ]; [ reflexivity | ].
  cbn [map]. cbn [chip to_textContent ToString cbind].
  rewrite IH. reflexivity.
Qed.

Lemma addSuggestions_strings (labels : list string) (w : World) :
  addSuggestions (VArr (map VStr labels)) w =
  (Normal tt,
   set_chatMessages (fun cs => cs ++ [suggestionsDiv (map chip_for labels)]) w).
Proof.
  unfold addSuggestions, bind, eval.
  rewrite forEach_strings. reflexivity.
Qed.

Lemma firstn_map_VStr (n : nat) (labels : list string) :
  firstn n (map VStr labels) = map VStr (firstn n labels).
Proof. apply firstn_map. Qed.

(** The promise chain of the startup load touches neither the page nor
    the history, and at most adds a timer. *)
Lemma startup_resume_frame (o : Outcome) (w : World) :
  let w' := snd (startup_resume o w) in
  page w' = page w /\ chatHistory w' = chatHistory w /\
  pending w' = pending w /\
  exists extra : list Timer, timers w' = timers w ++ extra.
Proof.
  cbv zeta. unfold startup_resume, try_catch, bind, eval.
  assert (Z : exists extra : list Timer, timers w = timers w ++ extra)
    by (exists []; symmetry; apply app_nil_r).
  destruct (decoded o) as [data | e | ];
    [ | repeat split; exact Z | repeat split; exact Z ].
  destruct (member data "suggestions") as [s | e | ];
    [ | repeat split; exact Z | repeat split; exact Z ].
  destruct (truthy s); [ | repeat split; exact Z ].
  destruct (length_positive s) as [[ | ] | e | ];
    try (repeat split; exact Z).
  repeat split. eexists. reflexivity.
Qed.

(* ================================================================= *)
(** ** Relations that every statement keeps *)

Section Keeps.

Variable R : World -> World -> Prop.
Hypothesis R_refl : forall w, R w w.
Hypothesis R_trans : forall a b c, R a b -> R b c -> R a c.

Lemma keeps_ret {A : Type} (a : A) : keeps R (ret a).
Proof. intros w. apply R_refl. Qed.

Lemma keeps_eval {A : Type} (c : completion A) : keeps R (eval c).
Proof. intros w. apply R_refl. Qed.

Lemma keeps_read {A : Type} (f : World -> A) : keeps R (read f).
Proof. intros w. apply R_refl. Qed.

Lemma keeps_exec (f : World -> World) :
  (forall w, R w (f w)) -> keeps R (exec f).
Proof. intros H w. apply H. Qed.

Lemma keeps_bind {A B : Type} (m : M A) (k : A -> M B) :
  keeps R m -> (forall a, keeps R (k a)) -> keeps R (bind m k).
Proof.
  intros Hm Hk w. unfold bind. specialize (Hm w).
  destruct (m w) as [[a | e | ] w1]; simpl in Hm; simpl;
    [ eapply R_trans; [ exact Hm | apply Hk ] | exact Hm | exact Hm ].
Qed.

Lemma keeps_try_catch {A : Type} (body : M A) (handler : exn -> M A) :
  keeps R body -> (forall e, keeps R (handler e)) ->
  keeps R (try_catch body handler).
Proof.
  intros Hb Hh w. unfold try_catch. specialize (Hb w).
  destruct (body w) as [[a | e | ] w1]; simpl in Hb; simpl;
    [ exact Hb | eapply R_trans; [ exact Hb | apply Hh ] | exact Hb ].
Qed.

Lemma keeps_if {A : Type} (b : bool) (m n : M A) :
  keeps R m -> keeps R n -> keeps R (if b then m else n).
Proof. destruct b; auto. Qed.

(** One task of the event loop. *)
Lemma keeps_task (m : M unit) (w w' : World) :
  (forall l v, R v (log l v)) ->
  keeps R m -> task m w = Some w' -> R w w'.
Proof.
  intros Hl Hm. unfold task. specialize (Hm w).
  destruct (m w) as [[[] | e | ] w1]; simpl in Hm; intros H;
    inversion H; subst.
  - exact Hm.
  - eapply R_trans; [ exact Hm | apply Hl ].
Qed.

End Keeps.

(** Breaks a statement of the script into its parts; what is left are the
    state changes. *)
Ltac keeps_parts refl trans :=
  repeat first
    [ apply (keeps_ret _ refl)
    | apply (keeps_eval _ refl)
    | apply (keeps_read _ refl)
    | apply (keeps_bind _ trans); [ | intro ]
    | apply (keeps_try_catch _ trans); [ | intro ]
    | apply keeps_if
    | apply keeps_exec; intro ].

(** *** The history *)

Lemma same_history_refl (w : World) : same_history w w.
Proof. reflexivity. Qed.

Lemma same_history_trans (a b c : World) :
  same_history a b -> same_history b c -> same_history a c.
Proof. unfold same_history. congruence. Qed.

Ltac history_parts :=
  keeps_parts same_history_refl same_history_trans;
  try (unfold same_history; reflexivity).

Lemma addSuggestions_same_history (s : value) :
  keeps same_history (addSuggestions s).
Proof. unfold addSuggestions. history_parts. Qed.

Lemma addMessage_same_history (text : value) (isUser : bool)
      (type books suggestions : value) :
  keeps same_history (addMessage text isUser type books suggestions).
Proof.
  unfold addMessage. cbv zeta. history_parts.
Qed.

Lemma sendMessage_same_history : keeps same_history sendMessage.
Proof.
  intros w. rewrite sendMessage_spec. cbv zeta. cbn [snd].
  destruct (trim (messageInput (page w)) =? EmptyString)%string; reflexivity.
Qed.

Lemma sendMessage_catch_same_history (e : exn) :
  keeps same_history (sendMessage_catch e).
Proof. intros w. reflexivity. Qed.

Lemma startup_resume_same_history (o : Outcome) :
  keeps same_history (startup_resume o).
Proof. intros w. apply (startup_resume_frame o w). Qed.

Lemma run_callback_same_history (c : Callback) :
  keeps same_history (run_callback c).
Proof.
  destruct c; unfold run_callback; history_parts.
Qed.

Lemma chip_onclick_same_history (v : value) :
  keeps same_history (chip_onclick v).
Proof.
  unfold chip_onclick.
  apply (keeps_bind _ same_history_trans); [ history_parts | intro ].
  apply (keeps_bind _ same_history_trans); [ history_parts | intro ].
  apply sendMessage_same_history.
Qed.

(** The response pushes one exchange, or none when it throws. *)
Lemma show_response_history (message : string) (data : value) (now : string)
      (w : World) :
  let r := show_response message data now w in
  chatHistory (snd r) = chatHistory w \/
  (fst r = Normal tt /\
   exists bot, chatHistory (snd r) = chatHistory w ++ [mkExchange message bot now]).
Proof.
  cbv zeta.
  remember (show_response message data now w) as r eqn:Er.
  unfold show_response, bind, eval, exec in Er.
  destruct (member data "text") as [text | e | ];
    [ | subst r; left; reflexivity .. ].
  destruct (member data "type") as [type | e | ];
    [ | subst r; left; reflexivity .. ].
  destruct (member data "books") as [books | e | ];
    [ | subst r; left; reflexivity .. ].
  destruct (member data "suggestions") as [sg | e | ];
    [ | subst r; left; reflexivity .. ].
  pose proof (addMessage_same_history text false (or_else type (VStr "text"))
                (or_else books (VArr [])) (or_else sg (VArr [])) w) as Ha.
  destruct (addMessage text false (or_else type (VStr "text"))
              (or_else books (VArr [])) (or_else sg (VArr [])) w)
    as [[div | e | ] w1]; cbn [snd] in Ha; subst r; cbn [fst snd];
    [ | left; exact Ha .. ].
  right. split; [ reflexivity | ].
  exists text. unfold push_chatHistory. cbn [chatHistory].
  rewrite Ha. reflexivity.
Qed.

Lemma sendMessage_resume_history (message : string) (o : Outcome)
      (now : string) (w : World) :
  exists more : list Exchange,
    chatHistory (snd (sendMessage_resume message o now w)) =
      chatHistory w ++ more /\
    List.length more <= 1.
Proof.
  destruct (decoded o) as [data | e | ] eqn:D.
  - rewrite (sendMessage_resume_decoded _ _ _ _ _ D).
    set (w1 := set_chatMessages (remove_by_id "typingIndicator") w).
    unfold try_catch.
    destruct (show_response_history message data now w1) as [H | [Hn [bot H]]].
    + destruct (show_response message data now w1) as [[[] | e | ] w2];
        cbn [snd] in H |- *.
      * exists []. rewrite app_nil_r. split; [ exact H | apply Nat.le_0_l ].
      * exists []. rewrite app_nil_r. split; [ exact H | apply Nat.le_0_l ].
      * exists []. rewrite app_nil_r. split; [ exact H | apply Nat.le_0_l ].
    + destruct (show_response message data now w1) as [[[] | e | ] w2];
        cbn [fst snd] in Hn, H |- *; try discriminate.
      exists [mkExchange message bot now]. split; [ exact H | apply Nat.le_refl ].
  - rewrite (sendMessage_resume_undecoded _ _ _ _ _ D).
    exists []. rewrite app_nil_r. split; [ reflexivity | apply Nat.le_0_l ].
  - exfalso. exact (decoded_modelled o D).
Qed.

Lemma same_history_log (l : LogLine) (w : World) : same_history w (log l w).
Proof. reflexivity. Qed.

Lemma step_history (ev : Event) (w w' : World) :
  step ev w = Some w' ->
  exists more : list Exchange,
    chatHistory w' = chatHistory w ++ more /\
    List.length more <= (if is_settles ev then 1 else 0).
Proof.
  assert (Same : forall v v', same_history v v' ->
            exists more : list Exchange,
              chatHistory v' = chatHistory v ++ more /\ List.length more <= 0).
  { intros v v' H. exists []. rewrite app_nil_r.
    split; [ exact H | apply Nat.le_refl ]. }
  destruct ev as [s | key | panel c | n o now | n ]; cbn [step is_settles].
  - intros H; inversion H; subst. apply Same. reflexivity.
  - intros H. apply Same.
    apply (keeps_task _ same_history_trans _ _ _ same_history_log) in H;
      [ exact H | ].
    unfold handleKeyPress. apply keeps_if;
      [ apply sendMessage_same_history | apply (keeps_ret _ same_history_refl) ].
  - destruct (handler_at panel c w) as [v | ]; [ | discriminate ].
    intros H. apply Same.
    apply (keeps_task _ same_history_trans _ _ _ same_history_log) in H;
      [ exact H | apply chip_onclick_same_history ].
  - destruct (nth_error (pending w) n) as [[message req | req] | ];
      [ | | discriminate ].
    + unfold task.
      destruct (sendMessage_resume_history message o now
                  (set_pending (remove_nth n) w)) as (more & Hm & Hl).
      destruct (sendMessage_resume message o now
                  (set_pending (remove_nth n) w)) as [[[] | e | ] w1];
        try discriminate; intros H; inversion H; subst;
        exists more; split; assumption.
    + intros H.
      apply (keeps_task _ same_history_trans _ _ _ same_history_log) in H;
        [ | apply startup_resume_same_history ].
      destruct (Same _ _ H) as (more & Hm & Hl).
      exists more. split; [ exact Hm | lia ].
  - destruct (nth_error (timers w) n) as [t | ]; [ | discriminate ].
    intros H.
    apply (keeps_task _ same_history_trans _ _ _ same_history_log) in H;
      [ | apply run_callback_same_history ].
    apply Same. exact H.
Qed.

(** *** The transcript *)

Lemma transcript_app (cs ds : list Element) :
  transcript (cs ++ ds) = transcript cs ++ transcript ds.
Proof. apply filter_app. Qed.

Lemma transcript_remove (cs : list Element) :
  transcript (remove_by_id "typingIndicator" cs) = transcript cs.
Proof.
  unfold transcript, is_indicator.
  induction cs as [ | e cs IH ]; [ reflexivity | ].
  simpl. destruct (id e =? "typingIndicator")%string eqn:E; simpl.
  - reflexivity.
  - rewrite E. simpl. rewrite IH. reflexivity.
Qed.

Lemma transcript_grows_refl (w : World) : transcript_grows w w.
Proof. exists []. symmetry. apply app_nil_r. Qed.

Lemma transcript_grows_trans (a b c : World) :
  transcript_grows a b -> transcript_grows b c -> transcript_grows a c.
Proof.
  intros [m1 H1] [m2 H2]. exists (m1 ++ m2).
  rewrite H2, H1, app_assoc. reflexivity.
Qed.

Lemma transcript_grows_append (e : Element) (w : World) :
  transcript_grows w (set_chatMessages (fun cs => cs ++ [e]) w).
Proof.
  unfold transcript_grows, entries. cbn [page set_chatMessages chatMessages].
  rewrite transcript_app. eexists. reflexivity.
Qed.

Lemma transcript_grows_hide (w : World) :
  transcript_grows w (set_chatMessages (remove_by_id "typingIndicator") w).
Proof.
  unfold transcript_grows, entries. cbn [page set_chatMessages chatMessages].
  rewrite transcript_remove. exists []. symmetry. apply app_nil_r.
Qed.

Lemma transcript_grows_same (w w' : World) :
  chatMessages (page w') = chatMessages (page w) -> transcript_grows w w'.
Proof.
  intros H. unfold transcript_grows, entries. rewrite H.
  exists []. symmetry. apply app_nil_r.
Qed.

Ltac transcript_parts :=
  keeps_parts transcript_grows_refl transcript_grows_trans;
  try first [ apply transcript_grows_append
            | apply transcript_grows_hide
            | apply transcript_grows_same; reflexivity ].

Lemma addMessage_transcript (text : value) (isUser : bool)
      (type books suggestions : value) :
  keeps transcript_grows (addMessage text isUser type books suggestions).
Proof. unfold addMessage. cbv zeta. transcript_parts. Qed.

Lemma sendMessage_transcript : keeps transcript_grows sendMessage.
Proof.
  intros w. rewrite sendMessage_spec. cbv zeta. cbn [snd].
  destruct (trim (messageInput (page w)) =? EmptyString)%string.
  - apply transcript_grows_refl.
  - unfold transcript_grows, entries, submitted. cbn [page chatMessages].
    rewrite transcript_app. eexists. reflexivity.
Qed.

Lemma sendMessage_resume_transcript (message : string) (o : Outcome)
      (now : string) :
  keeps transcript_grows (sendMessage_resume message o now).
Proof.
  unfold sendMessage_resume, sendMessage_try, sendMessage_catch,
    show_response, hideTypingIndicator.
  transcript_parts; apply addMessage_transcript.
Qed.

Lemma startup_resume_transcript (o : Outcome) :
  keeps transcript_grows (startup_resume o).
Proof.
  intros w. apply transcript_grows_same.
  destruct (startup_resume_frame o w) as (Hp & _). rewrite Hp. reflexivity.
Qed.

Lemma run_callback_transcript (c : Callback) :
  keeps transcript_grows (run_callback c).
Proof. destruct c; unfold run_callback, addSuggestions; transcript_parts. Qed.

Lemma chip_onclick_transcript (v : value) :
  keeps transcript_grows (chip_onclick v).
Proof.
  unfold chip_onclick.
  apply (keeps_bind _ transcript_grows_trans); [ transcript_parts | intro ].
  apply (keeps_bind _ transcript_grows_trans); [ transcript_parts | intro ].
  apply sendMessage_transcript.
Qed.

Lemma transcript_grows_log (l : LogLine) (w : World) :
  transcript_grows w (log l w).
Proof. apply transcript_grows_same. reflexivity. Qed.

Lemma step_transcript (ev : Event) (w w' : World) :
  step ev w = Some w' -> transcript_grows w w'.
Proof.
  destruct ev as [s | key | panel c | n o now | n ]; cbn [step].
  - intros H; inversion H; subst. apply transcript_grows_same. reflexivity.
  - apply (keeps_task _ transcript_grows_trans _ _ _ transcript_grows_log).
    unfold handleKeyPress. apply keeps_if;
      [ apply sendMessage_transcript
      | apply (keeps_ret _ transcript_grows_refl) ].
  - destruct (handler_at panel c w) as [v | ]; [ | discriminate ].
    apply (keeps_task _ transcript_grows_trans _ _ _ transcript_grows_log).
    apply chip_onclick_transcript.
  - destruct (nth_error (pending w) n) as [[message req | req] | ];
      [ | | discriminate ]; intros H;
      apply (keeps_task _ transcript_grows_trans _ _ _ transcript_grows_log)
        in H;
      [ | apply sendMessage_resume_transcript | | apply startup_resume_transcript ];
      (eapply transcript_grows_trans; [ | exact H ]);
      apply transcript_grows_same; reflexivity.
  - destruct (nth_error (timers w) n) as [t | ]; [ | discriminate ].
    intros H.
    apply (keeps_task _ transcript_grows_trans _ _ _ transcript_grows_log)
      in H; [ | apply run_callback_transcript ].
    eapply transcript_grows_trans; [ | exact H ].
    apply transcript_grows_same. reflexivity.
Qed.

(** *** The pending requests *)

Lemma Forall_remove_nth {A : Type} (P : A -> Prop) (n : nat) (l : list A) :
  Forall P l -> Forall P (remove_nth n l).
Proof.
  intros H. revert n.
  induction H as [ | a l Ha Hl IH ]; intros [ | n ]; simpl;
    try constructor; auto.
Qed.

Lemma sendMessage_as_issued (w : World) :
  Forall as_issued (pending w) ->
  Forall as_issued (pending (snd (sendMessage w))).
Proof.
  intros H. rewrite sendMessage_spec. cbv zeta. cbn [snd].
  destruct (trim (messageInput (page w)) =? EmptyString)%string eqn:E;
    [ exact H | ].
  unfold submitted. cbn [pending]. apply Forall_app. split; [ exact H | ].
  constructor; [ | constructor ].
  split; [ | reflexivity ].
  apply String.eqb_neq. exact E.
Qed.

Lemma step_as_issued (ev : Event) (w w' : World) :
  Forall as_issued (pending w) -> step ev w = Some w' ->
  Forall as_issued (pending w').
Proof.
  intros F. destruct ev as [s | key | panel c | n o now | n ]; cbn [step].
  - intros H; inversion H; subst. exact F.
  - unfold handleKeyPress. destruct (key =? "Enter")%string.
    + rewrite task_sendMessage. intros H; inversion H; subst.
      apply sendMessage_as_issued, F.
    + intros H; inversion H; subst. exact F.
  - destruct (handler_at panel c w) as [v | ]; [ | discriminate ].
    unfold chip_onclick, task. unfold bind at 1. unfold eval at 1.
    destruct (to_input_value v) as [t | e | ]; try discriminate.
    + unfold bind at 1. unfold exec at 1.
      pose proof (sendMessage_as_issued (set_messageInput t w) F) as Hs.
      rewrite sendMessage_spec in Hs |- *. cbn [snd] in Hs.
      intros H; inversion H; subst. exact Hs.
    + intros H; inversion H; subst. exact F.
  - destruct (nth_error (pending w) n) as [[message req | req] | ];
      [ | | discriminate ].
    + unfold task.
      pose proof (sendMessage_resume_hides message o now
                    (set_pending (remove_nth n) w)) as [Hp _].
      destruct (sendMessage_resume message o now
                  (set_pending (remove_nth n) w)) as [[[] | e | ] w1];
        try discriminate; cbn [snd] in Hp; intros H; inversion H; subst;
        cbn [pending log]; rewrite Hp; cbn [pending set_pending];
        apply Forall_remove_nth, F.
    + intros H.
      pose proof (task_quiet _ _ _ (steady_startup_resume o) H) as [Hp _].
      rewrite Hp. cbn [pending set_pending]. apply Forall_remove_nth, F.
  - destruct (nth_error (timers w) n) as [t | ]; [ | discriminate ].
    intros H.
    pose proof (task_quiet _ _ _ (steady_run_callback (callback t)) H)
      as [Hp _].
    rewrite Hp. exact F.
Qed.

(* ================================================================= *)
(** ** Sequences of events *)

Lemma run_history (evs : list Event) (w w' : World) :
  run evs w = Some w' ->
  exists more : list Exchange,
    chatHistory w' = chatHistory w ++ more /\
    List.length more <= settled evs.
Proof.
  revert w. induction evs as [ | ev evs IH ]; intros w H.
  - inversion H; subst. exists []. rewrite app_nil_r.
    split; [ reflexivity | apply Nat.le_0_l ].
  - cbn [run] in H.
    destruct (step ev w) as [w1 | ] eqn:E; [ | discriminate ].
    destruct (step_history ev w w1 E) as (m1 & H1 & L1).
    destruct (IH w1 H) as (m2 & H2 & L2).
    exists (m1 ++ m2). split.
    + rewrite H2, H1, app_assoc. reflexivity.
    + rewrite length_app. unfold settled in *. cbn [filter].
      destruct (is_settles ev); cbn [List.length]; lia.
Qed.

Lemma run_transcript (evs : list Event) (w w' : World) :
  run evs w = Some w' -> transcript_grows w w'.
Proof.
  revert w. induction evs as [ | ev evs IH ]; intros w H.
  - inversion H; subst. apply transcript_grows_refl.
  - cbn [run] in H.
    destruct (step ev w) as [w1 | ] eqn:E; [ | discriminate ].
    eapply transcript_grows_trans;
      [ exact (step_transcript ev w w1 E) | exact (IH w1 H) ].
Qed.

Lemma run_as_issued (evs : list Event) (w w' : World) :
  Forall as_issued (pending w) -> run evs w = Some w' ->
  Forall as_issued (pending w').
Proof.
  revert w. induction evs as [ | ev evs IH ]; intros w F H.
  - inversion H; subst. exact F.
  - cbn [run] in H.
    destruct (step ev w) as [w1 | ] eqn:E; [ | discriminate ].
    apply (IH w1); [ | exact H ].
    exact (step_as_issued ev w w1 F E).
Qed.

(* ================================================================= *)
(** ** Responses, case by case *)

Lemma settle_send (n : nat) (message : string) (req : Fetch) (o : Outcome)
      (now : string) (w : World) :
  nth_error (pending w) n = Some (SendMessageAwait message req) ->
  step (Settles n o now) w =
  task (sendMessage_resume message o now) (set_pending (remove_nth n) w).
Proof. intros H. cbn [step]. rewrite H. reflexivity. Qed.

Lemma resume_object (message : string) (status : Z)
      (props : list (string * value)) (now : string) (w : World) :
  sendMessage_resume message (json_response status props) now w =
  try_catch (show_response message (VObj props) now) sendMessage_catch
            (set_chatMessages (remove_by_id "typingIndicator") w).
Proof. apply sendMessage_resume_decoded. reflexivity. Qed.

Lemma addMessage_text (text : string) (books : value) (labels : list string)
      (w : World) :
  addMessage (VStr text) false (VStr "text") books (VArr (map VStr labels)) w =
  (Normal (bot_entry text),
   with_panel labels (set_chatMessages (fun cs => cs ++ [bot_entry text]) w)).
Proof.
  unfold addMessage. cbv zeta. cbn [default_to].
  unfold messageDiv. cbn [is_string String.eqb Ascii.eqb Bool.eqb].
  cbn [replace_call cbind]. unfold bind at 1. unfold eval at 1.
  unfold bind at 1. unfold exec at 1.
  unfold bind at 1. unfold eval at 1. cbn [length_positive].
  destruct labels as [ | l labels ].
  - reflexivity.
  - cbn [map List.length Nat.ltb Nat.leb]. unfold bind at 1.
    rewrite (addSuggestions_strings (l :: labels)). reflexivity.
Qed.

Lemma show_response_plain (message text now : string)
      (props : list (string * value)) (labels : list string) (w : World) :
  lookup "text" props = VStr text ->
  truthy (lookup "type" props) = false \/ lookup "type" props = VStr "text" ->
  or_else (lookup "suggestions" props) (VArr []) = VArr (map VStr labels) ->
  show_response message (VObj props) now w =
  (Normal tt,
   push_chatHistory (mkExchange message (VStr text) now)
     (with_panel labels
        (set_chatMessages (fun cs => cs ++ [bot_entry text]) w))).
Proof.
  intros Ht Hy Hs. rewrite show_response_object.
  rewrite Ht, (or_else_text _ Hy), Hs.
  unfold bind. rewrite addMessage_text. reflexivity.
Qed.

(** The step of the event loop for such a response. *)
Lemma settle_plain (w : World) (n : nat) (message : string) (req : Fetch)
      (status : Z) (props : list (string * value)) (text : string)
      (labels : list string) (now : string) :
  nth_error (pending w) n = Some (SendMessageAwait message req) ->
  lookup "text" props = VStr text ->
  truthy (lookup "type" props) = false \/ lookup "type" props = VStr "text" ->
  or_else (lookup "suggestions" props) (VArr []) = VArr (map VStr labels) ->
  step (Settles n (json_response status props) now) w =
  Some (push_chatHistory (mkExchange message (VStr text) now)
          (with_panel labels
             (set_chatMessages (fun cs => cs ++ [bot_entry text])
                (set_chatMessages (remove_by_id "typingIndicator")
                   (set_pending (remove_nth n) w))))).
Proof.
  intros Hn Ht Hy Hs.
  rewrite (settle_send _ _ _ _ _ _ Hn). unfold task.
  rewrite resume_object. unfold try_catch.
  rewrite (show_response_plain _ _ _ _ _ _ Ht Hy Hs). reflexivity.
Qed.

Lemma submit_step (a : string) (w : World) :
  trim a <> EmptyString ->
  run [UserTypes a; KeyPress "Enter"] w =
  Some (submitted (trim a) (set_messageInput a w)).
Proof.
  intros H. cbn [run step]. unfold handleKeyPress.
  cbn [String.eqb Ascii.eqb Bool.eqb]. rewrite task_sendMessage.
  rewrite sendMessage_spec. cbv zeta. cbn [snd page messageInput set_messageInput].
  apply String.eqb_neq in H. rewrite H. reflexivity.
Qed.

Lemma run_app (evs1 evs2 : list Event) (w : World) :
  run (evs1 ++ evs2) w =
  match run evs1 w with
  | Some w1 => run evs2 w1
  | None => None
  end.
Proof.
  revert w. induction evs1 as [ | ev evs1 IH ]; intros w; [ reflexivity | ].
  cbn [app run]. destruct (step ev w) as [w1 | ]; [ apply IH | reflexivity ].
Qed.




Lemma nth_error_app_at {A : Type} (l r : list A) (k : nat) :
  nth_error (l ++ r) (List.length l + k) = nth_error r k.
Proof.
  rewrite nth_error_app2 by lia. f_equal. lia.
Qed.

Lemma remove_nth_app_at {A : Type} (l r : list A) (k : nat) :
  remove_nth (List.length l + k) (l ++ r) = l ++ remove_nth k r.
Proof.
  induction l as [ | a l IH ]; [ reflexivity | ].
  cbn [List.length Nat.add app remove_nth]. rewrite IH. reflexivity.
Qed.

(** *** Line feeds *)

Lemma one_line_cons (a : ascii) (s : string) :
  one_line (String a s) -> nat_of_ascii a <> 10 /\ one_line s.
Proof.
  unfold one_line, newline, byte. cbn [includes prefix].
  destruct (ascii_dec (ascii_of_nat 10) a) as [E | E].
  - destruct s; discriminate.
  - intros H. split; [ | exact H ].
    intros N. apply E. rewrite <- N. apply ascii_nat_embedding.
Qed.

Lemma replace_newlines_one_line (l s : string) :
  one_line l -> replace_newlines (l ++ s) = (l ++ replace_newlines s)%string.
Proof.
  induction l as [ | a l IH ]; intros H; [ reflexivity | ].
  destruct (one_line_cons a l H) as [Ha Hl].
  cbn [append replace_newlines].
  apply Nat.eqb_neq in Ha. rewrite Ha, (IH Hl). reflexivity.
Qed.

Lemma append_empty (s : string) : (s ++ EmptyString)%string = s.
Proof. induction s as [ | a s IH ]; [ reflexivity | ]. cbn. rewrite IH. reflexivity. Qed.

Lemma replace_newlines_join (lines : list string) :
  Forall one_line lines ->
  replace_newlines (join newline lines) = join "<br>" lines.
Proof.
  induction 1 as [ | l lines Hl _ IH ]; [ reflexivity | ].
  destruct lines as [ | l2 lines ].
  - cbn [join]. rewrite <- (append_empty l) at 1.
    rewrite (replace_newlines_one_line l EmptyString Hl).
    cbn [replace_newlines]. apply append_empty.
  - change (join newline (l :: l2 :: lines))
      with (l ++ newline ++ join newline (l2 :: lines))%string.
    change (join "<br>" (l :: l2 :: lines))
      with (l ++ "<br>" ++ join "<br>" (l2 :: lines))%string.
    rewrite (replace_newlines_one_line _ _ Hl).
    change (newline ++ join newline (l2 :: lines))%string
      with (String (byte 10) (join newline (l2 :: lines))).
    cbn [replace_newlines]. 
    change (Nat.eqb (nat_of_ascii (byte 10)) 10) with true. cbv iota.
    rewrite IH. reflexivity.
Qed.

(* ================================================================= *)
(** ** The input field *)

Lemma same_input_refl (w : World) : same_input w w.
Proof. reflexivity. Qed.

Lemma same_input_trans (a b c : World) :
  same_input a b -> same_input b c -> same_input a c.
Proof. unfold same_input. congruence. Qed.

Ltac input_parts :=
  keeps_parts same_input_refl same_input_trans;
  try (unfold same_input; reflexivity).

Lemma addMessage_same_input (text : value) (isUser : bool)
      (type books suggestions : value) :
  keeps same_input (addMessage text isUser type books suggestions).
Proof. unfold addMessage. cbv zeta. input_parts. Qed.

Lemma sendMessage_resume_same_input (message : string) (o : Outcome)
      (now : string) :
  keeps same_input (sendMessage_resume message o now).
Proof.
  unfold sendMessage_resume, sendMessage_try, sendMessage_catch,
    show_response, hideTypingIndicator.
  input_parts; apply addMessage_same_input.
Qed.

Lemma startup_resume_same_input (o : Outcome) :
  keeps same_input (startup_resume o).
Proof.
  intros w. unfold same_input.
  destruct (startup_resume_frame o w) as (Hp & _). rewrite Hp. reflexivity.
Qed.

Lemma run_callback_same_input (c : Callback) :
  keeps same_input (run_callback c).
Proof. destruct c; unfold run_callback, addSuggestions; input_parts. Qed.

Lemma same_input_log (l : LogLine) (w : World) : same_input w (log l w).
Proof. reflexivity. Qed.

(* ================================================================= *)
(** ** What is recorded *)

Lemma sendMessage_resume_pushes (message : string) (o : Outcome)
      (now : string) (w : World) :
  let w' := snd (sendMessage_resume message o now w) in
  chatHistory w' = chatHistory w \/
  exists bot : value,
    chatHistory w' = chatHistory w ++ [mkExchange message bot now].
Proof.
  cbv zeta.
  destruct (decoded o) as [data | e | ] eqn:D.
  - rewrite (sendMessage_resume_decoded _ _ _ _ _ D).
    set (w1 := set_chatMessages (remove_by_id "typingIndicator") w).
    unfold try_catch.
    destruct (show_response_history message data now w1) as [H | [Hn [bot H]]].
    + destruct (show_response message data now w1) as [[[] | e | ] w2];
        cbn [snd] in H |- *; left; exact H.
    + destruct (show_response message data now w1) as [[[] | e | ] w2];
        cbn [fst snd] in Hn, H |- *; try discriminate.
      right. exists bot. exact H.
  - rewrite (sendMessage_resume_undecoded _ _ _ _ _ D). left. reflexivity.
  - exfalso. exact (decoded_modelled o D).
Qed.

Lemma step_named (ev : Event) (w w' : World) :
  Forall as_issued (pending w) ->
  Forall named (chatHistory w) ->
  step ev w = Some w' ->
  Forall named (chatHistory w').
Proof.
  intros F N H.
  destruct ev as [s | key | panel c | n o now | n ];
    try (destruct (step_history _ w w' H) as (more & Hm & Hl);
         cbn [is_settles] in Hl; destruct more; [ | cbn in Hl; lia ];
         rewrite Hm, app_nil_r; exact N).
  cbn [step] in H.
  destruct (nth_error (pending w) n) as [[message req | req] | ] eqn:E;
    [ | | discriminate ].
  - assert (Hne : message <> EmptyString).
    { apply nth_error_In in E.
      rewrite Forall_forall in F. exact (proj1 (F _ E)). }
    unfold task in H.
    pose proof (sendMessage_resume_pushes message o now
                  (set_pending (remove_nth n) w)) as P. cbv zeta in P.
    assert (Hw : Forall named
                   (chatHistory
                      (snd (sendMessage_resume message o now
                              (set_pending (remove_nth n) w))))).
    { destruct P as [P | [bot P]]; rewrite P; cbn [chatHistory set_pending].
      - exact N.
      - apply Forall_app. split; [ exact N | ].
        constructor; [ exact Hne | constructor ]. }
    destruct (sendMessage_resume message o now
                (set_pending (remove_nth n) w)) as [[[] | e | ] w1];
      try discriminate; inversion H; subst; exact Hw.
  - apply (keeps_task _ same_history_trans _ _ _ same_history_log) in H;
      [ | apply startup_resume_same_history ].
    unfold same_history in H. rewrite H. exact N.
Qed.

Lemma run_named (evs : list Event) (w w' : World) :
  Forall as_issued (pending w) ->
  Forall named (chatHistory w) ->
  run evs w = Some w' ->
  Forall named (chatHistory w').
Proof.
  revert w. induction evs as [ | ev evs IH ]; intros w F N H.
  - inversion H; subst. exact N.
  - cbn [run] in H.
    destruct (step ev w) as [w1 | ] eqn:E; [ | discriminate ].
    apply (IH w1); [ | | exact H ].
    + exact (step_as_issued ev w w1 F E).
    + exact (step_named ev w w1 F N E).
Qed.

(* ================================================================= *)
(** ** Book-list responses *)

Lemma addMessage_book_list (heading : string) (vs : list value)
      (books : list BookSummary) (w : World) :
  Forall2 represents vs books ->
  addMessage (VStr heading) false (VStr "book_list") (VArr vs) (VArr []) w =
  (Normal (book_list_entry heading (map card_rendered books)),
   set_chatMessages
     (fun cs => cs ++ [book_list_entry heading (map card_rendered books)]) w).
Proof.
  intros H. unfold addMessage. cbv zeta. cbn [default_to].
  unfold messageDiv. cbn [is_string String.eqb Ascii.eqb Bool.eqb].
  cbn [ToString cbind]. rewrite (forEach_books vs books H).
  reflexivity.
Qed.

Lemma forEach_null_after (good : list value) (books : list BookSummary)
      (rest : list value) :
  Forall2 represents good books ->
  forEach (VArr (good ++ VNull :: rest)) bookCard = Throw TypeError.
Proof.
  unfold forEach.
  induction 1 as [ | v b good books Hv _ IH ]; [ reflexivity | ].
  cbn [app]. rewrite (bookCard_represents v b Hv). cbn [cbind].
  rewrite IH. reflexivity.
Qed.

Lemma forEach_unusable (bs : value) :
  unusable_books bs -> forEach bs bookCard = Throw TypeError.
Proof.
  intros [[_ Ha] | (good & books & rest & -> & Hg)].
  - destruct bs; try reflexivity. exfalso. eapply Ha. reflexivity.
  - exact (forEach_null_after good books rest Hg).
Qed.

Lemma unusable_truthy (bs : value) : unusable_books bs -> truthy bs = true.
Proof.
  intros [[Ht _] | (good & books & rest & -> & _)]; [ exact Ht | reflexivity ].
Qed.

Lemma addMessage_unusable_books (heading : string) (bs sg : value)
      (w : World) :
  unusable_books bs ->
  addMessage (VStr heading) false (VStr "book_list") bs sg w =
  (Throw TypeError, w).
Proof.
  intros H.
  assert (Hd : default_to (VArr []) bs = bs).
  { pose proof (unusable_truthy bs H) as T.
    destruct bs; try reflexivity. discriminate T. }
  unfold addMessage. cbv zeta. rewrite Hd. cbn [default_to].
  unfold messageDiv. cbn [is_string String.eqb Ascii.eqb Bool.eqb].
  cbn [ToString cbind]. rewrite (forEach_unusable bs H). reflexivity.
Qed.

(* ================================================================= *)
(** ** Pages without foreign markup *)

Lemma tagless_cons (a : ascii) (s : string) :
  tagless (String a s) = true -> opens_tag a = false /\ tagless s = true.
Proof.
  unfold tagless, opens_tag. cbn [includes prefix].
  destruct (ascii_dec "<" a) as [E | E].
  - subst a. destruct s; discriminate.
  - intros H. split; [ | exact H ].
    apply Ascii.eqb_neq. intros F. apply E. symmetry. exact F.
Qed.

(** Text without [<] is plain markup, and stays so when its line feeds
    become [<br>]. *)
Lemma plain_markup_replace (s : string) :
  tagless s = true -> plain_markup (replace_newlines s) = true.
Proof.
  induction s as [ | a s IH ]; intros H; [ reflexivity | ].
  destruct (tagless_cons a s H) as [Ha Hs].
  cbn [replace_newlines].
  assert (P : forall x, prefix EmptyString x = true)
    by (intros [ | ? ? ]; reflexivity).
  destruct (Nat.eqb (nat_of_ascii a) 10).
  - cbn. rewrite P. exact (IH Hs).
  - cbn [plain_markup]. rewrite Ha. cbn [andb]. exact (IH Hs).
Qed.

Lemma inert_page_app (cs ds : list Element) :
  inert_page (cs ++ ds) = inert_page cs && inert_page ds.
Proof. apply forallb_app. Qed.

Lemma inert_page_remove (i : string) (cs : list Element) :
  inert_page cs = true -> inert_page (remove_by_id i cs) = true.
Proof.
  induction cs as [ | e cs IH ]; [ reflexivity | ].
  cbn [inert_page forallb remove_by_id]. intros H.
  apply andb_true_iff in H. destruct H as [He Hc].
  destruct (id e =? i)%string.
  - exact Hc.
  - cbn [forallb]. rewrite He. exact (IH Hc).
Qed.

Lemma inert_failed (e : exn) (w : World) : inert w -> inert (failed e w).
Proof.
  unfold inert, failed. cbn [page chatMessages]. intros H.
  rewrite inert_page_app, (inert_page_remove _ _ H). reflexivity.
Qed.

Lemma inert_user_entry (message : string) :
  tagless message = true -> inert_element (user_entry message) = true.
Proof.
  intros H. unfold inert_element, user_entry.
  cbn [inner children plain_content forallb].
  rewrite (plain_markup_replace message H). reflexivity.
Qed.

Lemma inert_typingDiv : inert_element typingDiv = true.
Proof. reflexivity. Qed.

Lemma inert_submitted (message : string) (w : World) :
  tagless message = true -> inert w -> inert (submitted message w).
Proof.
  unfold inert, submitted. cbn [page chatMessages]. intros Hm H.
  rewrite inert_page_app, H.
  cbn [inert_page forallb].
  rewrite (inert_user_entry message Hm), inert_typingDiv. reflexivity.
Qed.

Lemma inert_bot_entry (text : string) :
  tagless text = true -> inert_element (bot_entry text) = true.
Proof.
  intros H. unfold inert_element, bot_entry. cbn [inner children plain_content forallb].
  rewrite (plain_markup_replace text H). reflexivity.
Qed.

Section DocumentOrder.

Variable take_out : string -> string -> option string.

(** What is assumed of the browser: plain markup holds no element with an
    id. *)
Hypothesis take_out_plain :
  forall i m, plain_markup m = true -> take_out i m = None.





End DocumentOrder.

(* ================================================================= *)
(** ** The two functions of the indicator, call by call *)






(* ================================================================= *)
(** ** Empty input *)

(** C4.  When the input field holds the empty string or white space only,
    submitting changes nothing: no transcript entry is appended, no request
    is issued, and the history and the input field are as they were. *)
Theorem blank_input_is_ignored (w : World) :
  blank (messageInput (page w)) ->
  sendMessage w = (Normal tt, w) /\ step (KeyPress "Enter") w = Some w.
Proof.
  intros H.
  assert (E : sendMessage w = (Normal tt, w)).
  { rewrite sendMessage_spec. cbv zeta. rewrite (trim_blank _ H). reflexivity. }
  split; [ exact E | ].
  cbn. unfold task. rewrite E. reflexivity.
Qed.

Lemma blank_spaces_and_tab :
  blank (String " " (String (byte 9) (String (byte 10) EmptyString))).
Proof.
  change (blank (" " ++ (String (byte 9) EmptyString ++
                 (String (byte 10) EmptyString ++ EmptyString)))%string).
  repeat (apply blank_more; [ unfold white_space; simpl; tauto | ]).
  apply blank_empty.
Qed.

Lemma blank_input_is_ignored_witness :
  let w := set_messageInput
             (String " " (String (byte 9) (String (byte 10) EmptyString)))
             fresh in
  blank (messageInput (page w)) /\
  sendMessage w = (Normal tt, w) /\ step (KeyPress "Enter") w = Some w.
Proof.
  split.
  - exact blank_spaces_and_tab.
  - apply blank_input_is_ignored. exact blank_spaces_and_tab.
Defined.

(* ================================================================= *)
(** ** A submission *)

(** C7, as the script has it.  When the input is not empty once trimmed,
    [sendMessage] appends the user entry, clears the input field, shows the
    typing indicator and issues the request; the entry and the [message] of
    the payload are the trimmed input. *)
Theorem submit_sends_trimmed_input (w : World) :
  let message := trim (messageInput (page w)) in
  message <> EmptyString ->
  exists w' : World,
    sendMessage w = (Normal tt, w') /\
    chatMessages (page w') =
      chatMessages (page w) ++ [user_entry message; typingDiv] /\
    messageInput (page w') = EmptyString /\
    pending w' =
      pending w ++
      [SendMessageAwait message
         (mkFetch "/api/chatbot/message" "POST"
                  (Some "application/json"%string)
                  (Some (VObj [("message"%string, VStr message)])))] /\
    chatHistory w' = chatHistory w.
Proof.
  cbv zeta. intros H.
  exists (submitted (trim (messageInput (page w))) w).
  rewrite sendMessage_spec. cbv zeta.
  apply String.eqb_neq in H. rewrite H.
  repeat split; reflexivity.
Qed.

Lemma submit_sends_trimmed_input_witness :
  let w := set_messageInput " hi " fresh in
  trim (messageInput (page w)) <> EmptyString /\
  exists w' : World,
    sendMessage w = (Normal tt, w') /\
    chatMessages (page w') =
      chatMessages (page w)
      ++ [user_entry (trim (messageInput (page w))); typingDiv] /\
    messageInput (page w') = EmptyString /\
    pending w' =
      pending w ++
      [SendMessageAwait (trim (messageInput (page w)))
         (mkFetch "/api/chatbot/message" "POST"
                  (Some "application/json"%string)
                  (Some (VObj [("message"%string,
                                VStr (trim (messageInput (page w))))])))] /\
    chatHistory w' = chatHistory w.
Proof.
  split.
  - vm_compute. discriminate.
  - apply (submit_sends_trimmed_input (set_messageInput " hi " fresh)).
    vm_compute. discriminate.
Defined.

(** C7, as the specification has it, fails: the input [" hi "] is sent as
    ["hi"], which is not the raw input. *)
Lemma raw_input_is_not_the_payload :
  let w := set_messageInput " hi " fresh in
  map (fun p => match p with
                | SendMessageAwait _ request => body request
                | StartupAwait request => body request
                end)
      (pending (snd (sendMessage w)))
  = [None; Some (VObj [("message"%string, VStr "hi")])]
  /\ VStr "hi" <> VStr (messageInput (page w)).
Proof.
  split.
  - vm_compute. reflexivity.
  - vm_compute. discriminate.
Qed.

(* ================================================================= *)
(** ** The typing indicator *)




(* ================================================================= *)
(** ** Failure of the exchange *)




(** C1, as the script has it.  On a page without foreign markup and with
    at most one indicator, the failure path is taken when the request is
    rejected, when the body does not decode, and when the decoded body
    cannot be shown: it is [null], or it has no string [text] while it is to
    be shown as plain text.  Then the indicator is hidden, the apology is
    rendered, the error is logged and nothing is appended to the history.
    The status of the response plays no part: whatever it is, a body with a
    string [text] to be shown as plain text is rendered and recorded. *)
Theorem failure_path (message now : string) (w : World) :
  inert w ->
  shown w <= 1 ->
  (forall o : Outcome,
     broken o ->
     exists (e : exn) (w' : World),
       sendMessage_resume message o now w = (Normal tt, w') /\
       shown w' = 0 /\
       chatMessages (page w') =
         remove_by_id "typingIndicator" (chatMessages (page w))
         ++ [fallback_entry] /\
       chatHistory w' = chatHistory w /\
       console w' = console w ++ [ConsoleError (Some "Error:"%string) e] /\
       inert w') /\
  (forall (status : Z) (props : list (string * value)) (text : string),
     lookup "text" props = VStr text ->
     truthy (lookup "type" props) = false \/
     lookup "type" props = VStr "text" ->
     has_own "suggestions" props = false ->
     sendMessage_resume message (Responded status (Some (VObj props))) now w =
     (Normal tt,
      push_chatHistory (mkExchange message (VStr text) now)
        (set_chatMessages (fun cs => cs ++ [bot_entry text])
           (set_chatMessages (remove_by_id "typingIndicator") w)))).
Proof.
  intros N S1. split.
  - intros o B.
    destruct o as [e | status [data | ]].
    + exists e, (failed e w).
      rewrite (sendMessage_resume_undecoded message (Rejected e) now e w
                 eq_refl).
      repeat split; [ apply shown_failed, S1 | apply inert_failed, N ].
    + exists TypeError, (failed TypeError w).
      rewrite (sendMessage_resume_decoded
                 message (Responded status (Some data)) now data w eq_refl).
      unfold try_catch. rewrite (show_response_throws message data now _ B).
      rewrite sendMessage_catch_spec.
      assert (E : failed TypeError
                    (set_chatMessages (remove_by_id "typingIndicator") w) =
                  failed TypeError w).
      { unfold failed. cbn -[remove_by_id].
        rewrite (remove_twice _ S1). reflexivity. }
      rewrite E.
      repeat split; [ apply shown_failed, S1 | apply inert_failed, N ].
    + exists SyntaxError, (failed SyntaxError w).
      rewrite (sendMessage_resume_undecoded
                 message (Responded status None) now SyntaxError w eq_refl).
      repeat split; [ apply shown_failed, S1 | apply inert_failed, N ].
  - intros status props text Ht Hy Hs.
    change (Responded status (Some (VObj props)))
      with (json_response status props).
    rewrite resume_object. unfold try_catch.
    rewrite (show_response_plain message text now props [] _ Ht Hy).
    + reflexivity.
    + rewrite (lookup_absent _ _ Hs). reflexivity.
Qed.

Lemma failure_path_witness :
  let w := submitted "hello" fresh in
  let now := "2024-01-01T00:00:00.000Z"%string in
  inert w /\
  shown w <= 1 /\
  broken (Responded 200 (Some (VObj [("reply"%string, VStr "Hello")]))) /\
  (exists (e : exn) (w' : World),
     sendMessage_resume
       "hello" (Responded 200 (Some (VObj [("reply"%string, VStr "Hello")])))
       now w = (Normal tt, w') /\
     shown w' = 0 /\
     chatMessages (page w') =
       remove_by_id "typingIndicator" (chatMessages (page w))
       ++ [fallback_entry] /\
     chatHistory w' = chatHistory w /\
     console w' = console w ++ [ConsoleError (Some "Error:"%string) e] /\
     inert w') /\
  sendMessage_resume
    "hello" (Responded 503 (Some (VObj [("text"%string, VStr "Busy")])))
    now w =
  (Normal tt,
   push_chatHistory (mkExchange "hello" (VStr "Busy") now)
     (set_chatMessages (fun cs => cs ++ [bot_entry "Busy"])
        (set_chatMessages (remove_by_id "typingIndicator") w))).
Proof.
  cbv zeta.
  assert (N : inert (submitted "hello" fresh)) by reflexivity.
  assert (S1 : shown (submitted "hello" fresh) <= 1) by (vm_compute; lia).
  assert (B : broken (Responded 200
                        (Some (VObj [("reply"%string, VStr "Hello")])))).
  { right. exists VUndefined, VUndefined.
    repeat split; try reflexivity.
    - intros s; discriminate.
    - left; reflexivity. }
  destruct (failure_path "hello" "2024-01-01T00:00:00.000Z"
              (submitted "hello" fresh) N S1) as [F G].
  split; [ exact N | ].
  split; [ exact S1 | ].
  split; [ exact B | ].
  split; [ exact (F _ B) | ].
  exact (G 503%Z [("text"%string, VStr "Busy")] "Busy"%string
           eq_refl (or_introl eq_refl) eq_refl).
Defined.

(** C1, as the specification has it, fails.  A response of status 500
    whose body has a [text] is shown and recorded like any other, and so is
    a body without [text] that asks for a book list. *)
Lemma status_and_missing_text_not_failures :
  let server_error :=
    Responded 500 (Some (VObj [("text"%string, VStr "Internal Server Error")])) in
  let no_text :=
    Responded 200 (Some (VObj [("type"%string, VStr "book_list")])) in
  let exchange o :=
    run [UserTypes "hello"; KeyPress "Enter"; Settles 1 o "t"] fresh in
  option_map chatHistory (exchange server_error)
    = Some [mkExchange "hello" (VStr "Internal Server Error") "t"]
  /\ option_map (fun w => chatMessages (page w)) (exchange server_error)
    = Some [user_entry "hello";
            mkElement "message bot-message" EmptyString
                      (Html "Internal Server Error") []]
  /\ option_map chatHistory (exchange no_text)
    = Some [mkExchange "hello" VUndefined "t"]
  /\ option_map (fun w => chatMessages (page w)) (exchange no_text)
    = Some [user_entry "hello";
            mkElement "message bot-message" EmptyString
                      (Html "<strong>undefined</strong>") []].
Proof. repeat split. Qed.

(* ================================================================= *)
(** ** Book lists *)

(** C5, as the script has it.  A book list is rendered as a heading
    followed by one card per book, in the order of [books]; a card shows
    title and author, the genre when it is present and not empty, and the
    rating, as its text followed by [/5], when it is present and not zero. *)
Theorem book_list_rendering
        (heading : string) (vs : list value) (books : list BookSummary)
        (w : World) :
  Forall2 represents vs books ->
  addMessage (VStr heading) false (VStr "book_list") (VArr vs) (VArr []) w =
  (Normal (book_list_entry heading (map card_rendered books)),
   set_chatMessages
     (fun cs => cs ++ [book_list_entry heading (map card_rendered books)]) w).
Proof.
  intros H. unfold addMessage. cbv zeta. cbn [default_to].
  unfold messageDiv. cbn [is_string String.eqb Ascii.eqb Bool.eqb].
  cbn [ToString cbind]. rewrite (forEach_books vs books H).
  reflexivity.
Qed.

Lemma dune_and_orwell_represented :
  Forall2 represents [dune_json; orwell_json] [dune; orwell].
Proof.
  repeat constructor; eexists; (split; [ reflexivity | repeat split ]).
Qed.

Lemma book_list_rendering_witness :
  Forall2 represents [dune_json; orwell_json] [dune; orwell] /\
  addMessage (VStr "Here are some books") false (VStr "book_list")
             (VArr [dune_json; orwell_json]) (VArr []) fresh =
  (Normal (book_list_entry "Here are some books"
                           [card_rendered dune; card_rendered orwell]),
   set_chatMessages
     (fun cs => cs ++ [book_list_entry "Here are some books"
                         [card_rendered dune; card_rendered orwell]]) fresh).
Proof.
  split.
  - exact dune_and_orwell_represented.
  - exact (book_list_rendering "Here are some books"
             [dune_json; orwell_json] [dune; orwell] fresh
             dune_and_orwell_represented).
Defined.

(** The example of the specification: two cards in that order, the first
    with the rating marker and [5/5], the second without the marker. *)
Example dune_then_orwell :
  map markup_of [card_rendered dune; card_rendered orwell] =
    [card_text "Dune" "Frank Herbert" EmptyString
               ("<div class=" ++ quoted "book-rating" ++ ">⭐ 5/5</div>");
     card_text "1984" "George Orwell" EmptyString EmptyString]
  /\ includes "⭐ 5/5" (markup_of (card_rendered dune)) = true
  /\ includes "Dune" (markup_of (card_rendered dune)) = true
  /\ includes "by Frank Herbert" (markup_of (card_rendered dune)) = true
  /\ includes "book-rating" (markup_of (card_rendered orwell)) = false.
Proof. repeat split. Qed.

(** A rating that is no integer is shown by its text. *)
Example half_star_rating :
  let b := mkBook "Emma" "Jane Austen" (Some "Novel"%string)
                  (Some four_and_a_half) in
  let sent := VObj [("rating", VNum four_and_a_half);
                    ("genre", VStr "Novel"); ("author", VStr "Jane Austen");
                    ("title", VStr "Emma")]%string in
  represents sent b /\
  bookCard sent = Normal (card_rendered b) /\
  includes "⭐ 4.5/5" (markup_of (card_rendered b)) = true /\
  includes ">Novel</div>" (markup_of (card_rendered b)) = true.
Proof.
  cbv zeta. split; [ | repeat split ].
  eexists. split; [ reflexivity | repeat split ].
Qed.

(** C5, as the specification has it, fails: a rating of zero is present,
    and the card leaves it out. *)
Lemma zero_rating_is_left_out :
  let unrated := mkBook "Dune" "Frank Herbert" None (Some zero) in
  let sent := VObj [("title", VStr "Dune"); ("author", VStr "Frank Herbert");
                    ("rating", VNum zero)]%string in
  represents sent unrated /\
  includes "book-rating" (markup_of (card_specified unrated)) = true /\
  exists c : Child,
    bookCard sent = Normal c /\
    includes "book-rating" (markup_of c) = false /\
    c <> card_specified unrated.
Proof.
  cbv zeta. split; [ | split ].
  - eexists. split; [ reflexivity | repeat split ].
  - reflexivity.
  - eexists. split; [ reflexivity | split; [ reflexivity | ] ].
    intros E.
    apply (f_equal (fun c => includes "book-rating" (markup_of c))) in E.
    vm_compute in E. discriminate E.
Qed.

(* ================================================================= *)
(** ** Defaults of the optional fields *)

(** C6.  A body that omits [type] is handled as the same body with
    [type] set to ['text'], one that omits [books] as with [books] set to the
    empty array, one that omits [suggestions] as with [suggestions] set to the
    empty array; and a body that has a string [text] and none of the three is
    shown as one plain-text entry, without cards or chips, and recorded. *)
Theorem omitted_fields_take_defaults
        (message : string) (status : Z) (now : string)
        (props : list (string * value)) (w : World) :
  let respond p :=
    sendMessage_resume message (Responded status (Some (VObj p))) now w in
  (has_own "type" props = false ->
   respond props = respond (("type"%string, VStr "text") :: props)) /\
  (has_own "books" props = false ->
   respond props = respond (("books"%string, VArr []) :: props)) /\
  (has_own "suggestions" props = false ->
   respond props = respond (("suggestions"%string, VArr []) :: props)) /\
  (forall text : string,
     lookup "text" props = VStr text ->
     has_own "type" props = false ->
     has_own "books" props = false ->
     has_own "suggestions" props = false ->
     respond props =
     (Normal tt,
      push_chatHistory (mkExchange message (VStr text) now)
        (set_chatMessages (fun cs => cs ++ [bot_entry text])
           (set_chatMessages (remove_by_id "typingIndicator") w)))).
Proof.
  cbv zeta.
  assert (R : forall p,
    sendMessage_resume message (Responded status (Some (VObj p))) now w =
    try_catch (show_response message (VObj p) now) sendMessage_catch
              (set_chatMessages (remove_by_id "typingIndicator") w)).
  { intros p. apply sendMessage_resume_decoded. reflexivity. }
  repeat split.
  - intros H. rewrite !R. unfold try_catch.
    rewrite !show_response_object. cbn [lookup String.eqb Ascii.eqb Bool.eqb].
    rewrite (lookup_absent _ _ H). reflexivity.
  - intros H. rewrite !R. unfold try_catch.
    rewrite !show_response_object. cbn [lookup String.eqb Ascii.eqb Bool.eqb].
    rewrite (lookup_absent _ _ H). reflexivity.
  - intros H. rewrite !R. unfold try_catch.
    rewrite !show_response_object. cbn [lookup String.eqb Ascii.eqb Bool.eqb].
    rewrite (lookup_absent _ _ H). reflexivity.
  - intros text Ht H1 H2 H3. rewrite R. unfold try_catch.
    rewrite show_response_object.
    rewrite Ht, (lookup_absent _ _ H1), (lookup_absent _ _ H2),
      (lookup_absent _ _ H3).
    unfold bind. cbn [or_else truthy].
    rewrite addMessage_plain. reflexivity.
Qed.

Lemma omitted_fields_take_defaults_witness :
  let props := [("text"%string, VStr "Hello there")] in
  let respond p :=
    sendMessage_resume "hi" (Responded 200 (Some (VObj p)))
                       "2024-01-01T00:00:00.000Z" (submitted "hi" fresh) in
  respond props = respond (("type"%string, VStr "text") :: props) /\
  respond props = respond (("books"%string, VArr []) :: props) /\
  respond props = respond (("suggestions"%string, VArr []) :: props) /\
  respond props =
    (Normal tt,
     push_chatHistory
       (mkExchange "hi" (VStr "Hello there") "2024-01-01T00:00:00.000Z")
       (set_chatMessages (fun cs => cs ++ [bot_entry "Hello there"])
          (set_chatMessages (remove_by_id "typingIndicator")
             (submitted "hi" fresh)))).
Proof.
  cbv zeta.
  destruct (omitted_fields_take_defaults
              "hi" 200 "2024-01-01T00:00:00.000Z"
              [("text"%string, VStr "Hello there")] (submitted "hi" fresh))
    as (Ht & Hb & Hs & Hall).
  split; [ exact (Ht eq_refl) | ].
  split; [ exact (Hb eq_refl) | ].
  split; [ exact (Hs eq_refl) | ].
  exact (Hall "Hello there" eq_refl eq_refl eq_refl eq_refl).
Defined.

(* ================================================================= *)
(** ** Suggestion chips *)

(** C8.  A click on a chip that [addSuggestions] built for a suggestion
    does what typing the text of the chip and pressing Enter does: both end
    in the same world, or both leave the embedding. *)
Theorem chip_click_is_typed_submit
        (w : World) (panel i : nat) (e : Element) (c : Child) (v : value) :
  nth_error (chatMessages (page w)) panel = Some e ->
  nth_error (children e) i = Some c ->
  chip v = Normal c ->
  v <> VUndefined ->
  step (ClickChip panel i) w = run [UserTypes (label_of c); KeyPress "Enter"] w.
Proof.
  intros He Hc Hv Hu.
  unfold chip in Hv.
  destruct (to_textContent v) as [t | x | ] eqn:T; try discriminate.
  cbn [cbind] in Hv. inversion Hv; subst c. clear Hv.
  assert (Tv : to_input_value v = Normal t).
  { destruct v; try exact T. contradiction Hu; reflexivity. }
  cbn [step run label_of child_content].
  unfold handler_at. rewrite He, Hc. cbn [onclick].
  unfold handleKeyPress. cbn [String.eqb Ascii.eqb Bool.eqb].
  unfold chip_onclick, task, bind, eval, exec. rewrite Tv.
  destruct (sendMessage (set_messageInput t w)) as [[[] | x | ] w1];
    reflexivity.
Qed.

Lemma chip_click_is_typed_submit_witness :
  let c := chip_for "Search for Stephen King" in
  nth_error (chatMessages (page welcomed)) 0
    = Some (suggestionsDiv (map chip_for welcome)) /\
  nth_error (children (suggestionsDiv (map chip_for welcome))) 1 = Some c /\
  chip (VStr "Search for Stephen King") = Normal c /\
  VStr "Search for Stephen King" <> VUndefined /\
  step (ClickChip 0 1) welcomed =
  run [UserTypes (label_of c); KeyPress "Enter"] welcomed.
Proof.
  cbv zeta.
  assert (U : VStr "Search for Stephen King" <> VUndefined) by discriminate.
  split; [ reflexivity | ].
  split; [ reflexivity | ].
  split; [ reflexivity | ].
  split; [ exact U | ].
  exact (chip_click_is_typed_submit
           welcomed 0 1 (suggestionsDiv (map chip_for welcome))
           (chip_for "Search for Stephen King")
           (VStr "Search for Stephen King") eq_refl eq_refl eq_refl U).
Defined.

(* ================================================================= *)
(** ** Startup *)

(** C9.  When the suggestions request fails, the error is logged and
    neither the page nor the timers change.  When it brings a non-empty array
    of suggestions, a timer of 1000 ms is set, and when that timer fires one
    panel is appended to the page whose chips are those of the first four
    suggestions, in order, and no more than four in number. *)
Theorem startup_loader (w : World) (n : nat) (req : Fetch) :
  nth_error (pending w) n = Some (StartupAwait req) ->
  (forall (o : Outcome) (e : exn) (now : string),
     decoded o = Throw e ->
     step (Settles n o now) w =
     Some (log (ConsoleError None e) (set_pending (remove_nth n) w))) /\
  (forall (status : Z) (now : string) (props : list (string * value))
          (labels : list string),
     lookup "suggestions" props = VArr (map VStr labels) ->
     labels <> [] ->
     step (Settles n (Responded status (Some (VObj props))) now) w =
     Some (set_timers
             (fun t => t ++ [mkTimer (LoadedSuggestions (VObj props)) 1000])
             (set_pending (remove_nth n) w)) /\
     forall (w2 : World) (k : nat),
       nth_error (timers w2) k
         = Some (mkTimer (LoadedSuggestions (VObj props)) 1000) ->
       exists (w3 : World) (e : Element),
         step (TimerFires k) w2 = Some w3 /\
         chatMessages (page w3) = chatMessages (page w2) ++ [e] /\
         className e = "suggestions"%string /\
         children e =
           map (fun l => mkChild "suggestion-chip" (Text l) (Some (VStr l)))
               (firstn 4 labels) /\
         map label_of (children e) = firstn 4 labels /\
         List.length (children e) <= 4 /\
         timers w3 = remove_nth k (timers w2)).
Proof.
  intros H. split.
  - intros o e now D. cbn [step]. rewrite H.
    unfold task, startup_resume, try_catch, bind, eval. rewrite D.
    reflexivity.
  - intros status now props labels Hs Hl. split.
    + cbn [step]. rewrite H.
      unfold task, startup_resume, try_catch, bind, eval.
      cbn [decoded member]. rewrite Hs.
      destruct labels as [ | l labels ]; [ contradiction Hl; reflexivity | ].
      reflexivity.
    + intros w2 k Hk.
      exists (set_chatMessages
                (fun cs => cs ++ [panel (firstn 4 labels)])
                (set_timers (remove_nth k) w2)),
             (panel (firstn 4 labels)).
      split; [ | split; [ reflexivity | split; [ reflexivity | split;
               [ reflexivity | split; [ | split; [ | reflexivity ] ] ] ] ] ].
      * cbn [step]. rewrite Hk.
        unfold task. cbn [callback run_callback].
        unfold bind at 1. unfold eval at 1. cbn [member]. rewrite Hs.
        unfold bind at 1. unfold eval at 1. cbn [slice_0_4].
        rewrite firstn_map_VStr, addSuggestions_strings.
        reflexivity.
      * unfold panel. cbn [children]. rewrite map_map.
        cbn [label_of chip_for child_content]. apply map_id.
      * unfold panel. cbn [children]. rewrite length_map.
        apply firstn_le_length.
Qed.

Lemma startup_loader_witness :
  nth_error (pending fresh) 0 = Some (StartupAwait suggestions_request) /\
  step (Settles 0 (Rejected TypeError) "t") fresh =
    Some (log (ConsoleError None TypeError)
              (set_pending (remove_nth 0) fresh)) /\
  let six := ["a"; "b"; "c"; "d"; "e"; "f"]%string in
  let data := VObj [("suggestions"%string, VArr (map VStr six))] in
  let waiting :=
    set_timers (fun t => t ++ [mkTimer (LoadedSuggestions data) 1000])
               (set_pending (remove_nth 0) fresh) in
  step (Settles 0 (Responded 200 (Some data)) "t") fresh = Some waiting /\
  exists (w3 : World) (e : Element),
    step (TimerFires 1) waiting = Some w3 /\
    chatMessages (page w3) = chatMessages (page waiting) ++ [e] /\
    className e = "suggestions"%string /\
    children e =
      map (fun l => mkChild "suggestion-chip" (Text l) (Some (VStr l)))
          (firstn 4 six) /\
    map label_of (children e) = firstn 4 six /\
    List.length (children e) <= 4 /\
    timers w3 = remove_nth 1 (timers waiting).
Proof.
  cbv zeta.
  destruct (startup_loader fresh 0 suggestions_request eq_refl) as [F S].
  split; [ reflexivity | ].
  split; [ exact (F (Rejected TypeError) TypeError "t"%string eq_refl) | ].
  destruct (S 200%Z "t"%string
              [("suggestions"%string,
                VArr (map VStr ["a"; "b"; "c"; "d"; "e"; "f"]%string))]
              ["a"; "b"; "c"; "d"; "e"; "f"]%string eq_refl
              ltac:(discriminate)) as (S1 & S2).
  split; [ exact S1 | ].
  exact (S2 (set_timers
               (fun t => t ++ [mkTimer
                  (LoadedSuggestions
                     (VObj [("suggestions"%string,
                             VArr (map VStr ["a"; "b"; "c"; "d"; "e"; "f"]%string))]))
                  1000])
               (set_pending (remove_nth 0) fresh)) 1 eq_refl).
Defined.

(** C10.  The script sets the welcome timer, of 500 ms, when it starts.
    Whether that timer fires before or after the suggestions request
    settles, and however the request settles, the timer appends one panel of
    the four welcome chips to what the page held.  The settling of the
    request leaves the embedding only for a body whose [suggestions] is an
    object. *)
Theorem welcome_panel_always (p : Page) (o : Outcome) (now : string) :
  let chip_of l := mkChild "suggestion-chip" (Text l) (Some (VStr l)) in
  let panel :=
    mkElement "suggestions" EmptyString Empty
      [ chip_of "Recommend a fantasy book"%string;
        chip_of "Search for Stephen King"%string;
        chip_of "Show top rated books"%string;
        chip_of "What genres do you have?"%string ]
  in
  timers (startup p) = [mkTimer WelcomeSuggestions 500] /\
  (exists w1 : World,
     step (TimerFires 0) (startup p) = Some w1 /\
     chatMessages (page w1) = chatMessages p ++ [panel] /\
     forall w2 : World,
       step (Settles 0 o now) w1 = Some w2 ->
       chatMessages (page w2) = chatMessages p ++ [panel]) /\
  (forall w1 : World,
     step (Settles 0 o now) (startup p) = Some w1 ->
     exists w2 : World,
       step (TimerFires 0) w1 = Some w2 /\
       chatMessages (page w2) = chatMessages p ++ [panel]) /\
  (step (Settles 0 o now) (startup p) = None ->
   exists (status : Z) (props members : list (string * value)),
     o = Responded status (Some (VObj props)) /\
     lookup "suggestions" props = VObj members).
Proof.
  cbv zeta. split; [ reflexivity | split; [ | split ] ].
  - eexists. split; [ reflexivity | split; [ reflexivity | ] ].
    intros w2. cbn [step nth_error pending set_timers set_chatMessages startup].
    intros H.
    match type of H with task _ ?w0 = _ =>
      pose proof (startup_resume_frame o w0) as (Hp & _)
    end.
    unfold task in H.
    match type of H with context [startup_resume o ?w0] =>
      destruct (startup_resume o w0) as [[[] | x | ] w3]
    end; inversion H; subst; cbn [snd] in Hp;
      cbn [page log]; rewrite Hp; reflexivity.
  - intros w1. cbn [step nth_error pending startup]. intros H.
    match type of H with task _ ?w0 = _ =>
      pose proof (startup_resume_frame o w0) as (Hp & _ & _ & extra & Ht)
    end.
    unfold task in H.
    assert (Hw : page w1 = p /\
                 timers w1 = mkTimer WelcomeSuggestions 500 :: extra).
    { match type of H with context [startup_resume o ?w0] =>
        destruct (startup_resume o w0) as [[[] | x | ] w3]
      end; inversion H; subst; cbn [snd] in Hp, Ht;
        cbn [page timers log]; rewrite Hp, Ht; split; reflexivity. }
    destruct Hw as [Hw1 Hw2].
    cbn [step]. rewrite Hw2. cbn [nth_error callback run_callback].
    unfold task. rewrite addSuggestions_strings.
    eexists. split; [ reflexivity | ].
    cbn [page set_chatMessages set_timers chatMessages]. rewrite Hw1.
    reflexivity.
  - cbn [step nth_error pending startup].
    unfold task, startup_resume, try_catch, bind, eval.
    destruct o as [e | status [data | ]]; cbn [decoded]; try discriminate.
    destruct data as [ | | b | n | s | l | props ]; cbn [member];
      try discriminate.
    destruct (lookup "suggestions" props) as [ | | b | n | s | l | members ]
      eqn:E; cbn [truthy].
    + discriminate.
    + discriminate.
    + destruct b; discriminate.
    + destruct (negb (num_is_zero n)); discriminate.
    + destruct (negb (s =? EmptyString)%string); cbn [length_positive];
        [ destruct (negb (s =? EmptyString)%string) | ]; discriminate.
    + cbn [length_positive]. destruct (0 <? List.length l)%nat; discriminate.
    + intros _. exists status, props, members.
      split; [ reflexivity | exact E ].
Qed.

(* ================================================================= *)
(** ** Further properties: what the session never loses *)

(** X1.  Whatever happens, the history only grows at its end: its old
    entries stay as they are, and there is at most one new entry for each
    request that settled. *)
Theorem history_is_append_only (evs : list Event) (w w' : World) :
  run evs w = Some w' ->
  exists more : list Exchange,
    chatHistory w' = chatHistory w ++ more /\
    List.length more <= settled evs.
Proof. apply run_history. Qed.

Lemma history_is_append_only_witness :
  let evs := [UserTypes "hi"; KeyPress "Enter";
              Settles 1 (json_response 200 [("text"%string, VStr "Hello")]) "t";
              TimerFires 0] in
  exists w' : World,
    run evs fresh = Some w' /\
    exists more : list Exchange,
      chatHistory w' = chatHistory fresh ++ more /\
      List.length more <= settled evs.
Proof.
  cbv zeta. eexists. split.
  - vm_compute. reflexivity.
  - apply (history_is_append_only
             [UserTypes "hi"; KeyPress "Enter";
              Settles 1 (json_response 200 [("text"%string, VStr "Hello")]) "t";
              TimerFires 0]
             fresh).
    vm_compute. reflexivity.
Defined.

(** X2.  In a run that leaves no foreign markup on the page, the
    transcript only grows at its end: apart from typing indicators, no child
    of [#chatMessages] is ever removed, changed or moved. *)
Theorem transcript_is_append_only (evs : list Event) (w w' : World) :
  run evs w = Some w' ->
  inert w' ->
  exists more : list Element, entries w' = entries w ++ more.
Proof. intros H _. exact (run_transcript evs w w' H). Qed.

Lemma transcript_is_append_only_witness :
  let evs := [TimerFires 0; ClickChip 0 2;
              Settles 1 (Rejected TypeError) "t"] in
  exists w' : World,
    run evs fresh = Some w' /\
    inert w' /\
    exists more : list Element, entries w' = entries fresh ++ more.
Proof.
  cbv zeta. eexists. split; [ | split ].
  - vm_compute. reflexivity.
  - vm_compute. reflexivity.
  - apply (transcript_is_append_only
             [TimerFires 0; ClickChip 0 2; Settles 1 (Rejected TypeError) "t"]
             fresh).
    + vm_compute. reflexivity.
    + vm_compute. reflexivity.
Defined.

(** X4.  In every world the script can be in whose page holds no foreign
    markup, there are no more typing indicators than sends awaiting their
    response; so an idle controller shows none. *)
Theorem indicators_never_exceed_sends (w : World) :
  reachable w ->
  inert w ->
  shown w <= sends (pending w) /\ (state w = Idle -> shown w = 0).
Proof.
  intros R _. split.
  - exact (reachable_balanced w R).
  - exact (idle_hidden w R).
Qed.

Lemma indicators_never_exceed_sends_witness :
  let w := submitted "hi" (submitted "ho" fresh) in
  reachable w /\
  inert w /\
  shown w <= sends (pending w) /\ (state w = Idle -> shown w = 0).
Proof.
  cbv zeta.
  assert (R : reachable (submitted "hi" (submitted "ho" fresh))).
  { exists (mkPage [] EmptyString),
           [UserTypes "ho"; KeyPress "Enter"; UserTypes "hi"; KeyPress "Enter"].
    split; reflexivity. }
  assert (N : inert (submitted "hi" (submitted "ho" fresh))) by reflexivity.
  split; [ exact R | ].
  split; [ exact N | ].
  exact (indicators_never_exceed_sends _ R N).
Defined.


(** X6.  Every request that [sendMessage] has in flight is the POST of a
    JSON body to [/api/chatbot/message] whose [message] is the text the
    function captured, and that text is not empty: an empty message is never
    sent.  The startup load is the GET of [/api/chatbot/suggestions]. *)
Theorem requests_are_as_issued (w : World) :
  reachable w -> Forall as_issued (pending w).
Proof.
  intros (p & evs & _ & Hr).
  apply (run_as_issued evs (startup p)); [ | exact Hr ].
  repeat constructor.
Qed.

Lemma requests_are_as_issued_witness :
  let w := submitted "hi" fresh in
  reachable w /\ Forall as_issued (pending w).
Proof.
  cbv zeta.
  assert (R : reachable (submitted "hi" fresh)).
  { exists (mkPage [] EmptyString), [UserTypes " hi "; KeyPress "Enter"].
    split; reflexivity. }
  split; [ exact R | exact (requests_are_as_issued _ R) ].
Defined.

(* ================================================================= *)
(** ** Further properties: responses *)

(** X7.  On a page without foreign markup, a decoded response with a
    string [text], a [type] that is absent, falsy or ['text'] and an array of
    string [suggestions] hides one indicator, appends the text as one entry,
    appends one panel with a chip for every suggestion (all of them, not
    only four) when there is any, and records the exchange under the message
    the send captured.  The status and [books] play no part. *)
Theorem plain_response_is_shown_and_recorded
        (w : World) (n : nat) (message : string) (req : Fetch) (status : Z)
        (props : list (string * value)) (text : string)
        (labels : list string) (now : string) :
  inert w ->
  nth_error (pending w) n = Some (SendMessageAwait message req) ->
  lookup "text" props = VStr text ->
  truthy (lookup "type" props) = false \/ lookup "type" props = VStr "text" ->
  lookup "suggestions" props = VArr (map VStr labels) ->
  exists w' : World,
    step (Settles n (json_response status props) now) w = Some w' /\
    chatMessages (page w') =
      remove_by_id "typingIndicator" (chatMessages (page w))
      ++ bot_entry text
         :: match labels with
            | [] => []
            | _ => [mkElement "suggestions" EmptyString Empty
                      (map (fun l => mkChild "suggestion-chip" (Text l)
                                             (Some (VStr l))) labels)]
            end /\
    shown w' = pred (shown w) /\
    chatHistory w' = chatHistory w ++ [mkExchange message (VStr text) now] /\
    pending w' = remove_nth n (pending w).
Proof.
  intros _ Hn Ht Hy Hs.
  eexists. split.
  - apply (settle_plain w n message req status props text labels now Hn Ht Hy).
    rewrite Hs. reflexivity.
  - destruct labels as [ | l labels ].
    + split; [ reflexivity | ].
      split; [ | split; reflexivity ].
      unfold shown.
      cbn [with_panel push_chatHistory page chatMessages set_chatMessages
           set_pending].
      rewrite ?indicators_app, indicators_remove. cbn. lia.
    + split.
      * cbn [with_panel push_chatHistory page chatMessages set_chatMessages
             set_pending].
        rewrite <- app_assoc. reflexivity.
      * split; [ | split; reflexivity ].
        unfold shown.
        cbn [with_panel push_chatHistory page chatMessages set_chatMessages
             set_pending].
        rewrite ?indicators_app, indicators_remove. cbn. lia.
Qed.

Lemma plain_response_is_shown_and_recorded_witness :
  let w := submitted "hi" fresh in
  let labels := ["one"; "two"; "three"; "four"; "five"]%string in
  let props := [("text", VStr "Hello"); ("books", VNum five);
                ("suggestions", VArr (map VStr labels))]%string in
  inert w /\
  nth_error (pending w) 1
    = Some (SendMessageAwait "hi" (message_request "hi")) /\
  lookup "text" props = VStr "Hello" /\
  (truthy (lookup "type" props) = false \/ lookup "type" props = VStr "text") /\
  lookup "suggestions" props = VArr (map VStr labels) /\
  exists w' : World,
    step (Settles 1 (json_response 404 props) "t") w = Some w' /\
    chatMessages (page w') =
      remove_by_id "typingIndicator" (chatMessages (page w))
      ++ bot_entry "Hello"
         :: [mkElement "suggestions" EmptyString Empty
               (map (fun l => mkChild "suggestion-chip" (Text l)
                                      (Some (VStr l))) labels)] /\
    shown w' = pred (shown w) /\
    chatHistory w' = chatHistory w ++ [mkExchange "hi" (VStr "Hello") "t"] /\
    pending w' = remove_nth 1 (pending w).
Proof.
  cbv zeta.
  split; [ reflexivity | ].
  split; [ reflexivity | ].
  split; [ reflexivity | ].
  split; [ left; reflexivity | ].
  split; [ reflexivity | ].
  exact (plain_response_is_shown_and_recorded
           (submitted "hi" fresh) 1 "hi" (message_request "hi") 404
           [("text", VStr "Hello"); ("books", VNum five);
            ("suggestions",
             VArr (map VStr ["one"; "two"; "three"; "four"; "five"]))]%string
           "Hello" ["one"; "two"; "three"; "four"; "five"]%string "t"
           eq_refl eq_refl eq_refl (or_introl eq_refl) eq_refl).
Defined.





(** X10.  Text goes into the page as written: the entry of a message made
    of lines holds those lines joined by [<br>], each line unchanged, markup
    characters included. *)
Theorem lines_are_joined_by_breaks
        (lines : list string) (isUser : bool) (w : World) :
  Forall one_line lines ->
  let entry := mkElement (message_class isUser) EmptyString
                         (Html (join "<br>" lines)) [] in
  addMessage (VStr (join newline lines)) isUser
             VUndefined VUndefined VUndefined w =
  (Normal entry, set_chatMessages (fun cs => cs ++ [entry]) w).
Proof.
  intros H. cbv zeta.
  unfold addMessage. cbv zeta. cbn [default_to].
  unfold messageDiv. cbn [is_string String.eqb Ascii.eqb Bool.eqb].
  cbn [replace_call cbind]. rewrite (replace_newlines_join lines H).
  reflexivity.
Qed.

Lemma lines_are_joined_by_breaks_witness :
  let lines := ["<b>Dune</b>"; ""; "by Frank Herbert"]%string in
  let entry := mkElement "message user-message" EmptyString
                 (Html "<b>Dune</b><br><br>by Frank Herbert") [] in
  Forall one_line lines /\
  addMessage (VStr (join newline lines)) true
             VUndefined VUndefined VUndefined fresh =
  (Normal entry, set_chatMessages (fun cs => cs ++ [entry]) fresh).
Proof.
  cbv zeta.
  assert (F : Forall one_line ["<b>Dune</b>"; ""; "by Frank Herbert"]%string)
    by (repeat constructor).
  split; [ exact F | ].
  exact (lines_are_joined_by_breaks _ true fresh F).
Defined.

(* ================================================================= *)
(** ** Further properties: two sends at once *)

(** X11.  Nothing stops a second send while the first is awaiting its
    response.  On a page without foreign markup, when two messages without
    any [<] are sent from an idle controller and the response to the second
    arrives first, each with a text without any [<], both responses are
    shown and recorded in the order of their arrival, each exchange under
    its own message, and when both have settled no indicator is left, the
    controller is idle and the page still holds no foreign markup. *)
Theorem overlapping_sends_both_settle
        (w : World) (a b ta tb now1 now2 : string) :
  reachable w ->
  inert w ->
  state w = Idle ->
  trim a <> EmptyString ->
  trim b <> EmptyString ->
  tagless (trim a) = true ->
  tagless (trim b) = true ->
  tagless ta = true ->
  tagless tb = true ->
  exists w' : World,
    run [UserTypes a; KeyPress "Enter"; UserTypes b; KeyPress "Enter";
         Settles (List.length (pending w) + 1)
                 (json_response 200 [("text"%string, VStr tb)]) now1;
         Settles (List.length (pending w))
                 (json_response 200 [("text"%string, VStr ta)]) now2] w
      = Some w' /\
    chatMessages (page w') =
      chatMessages (page w)
      ++ [user_entry (trim a); user_entry (trim b); bot_entry tb; bot_entry ta]
    /\
    chatHistory w' =
      chatHistory w ++ [mkExchange (trim b) (VStr tb) now1;
                        mkExchange (trim a) (VStr ta) now2] /\
    shown w' = 0 /\
    state w' = Idle /\
    inert w'.
Proof.
  intros R N I Ha Hb Ga Gb Gta Gtb.
  pose proof (idle_hidden w R I) as S0. unfold shown in S0.
  pose proof (idle_no_sends w I) as P0.
  set (L := List.length (pending w)).
  set (w1 := submitted (trim a) (set_messageInput a w)).
  set (w2 := submitted (trim b) (set_messageInput b w1)).
  set (sa := SendMessageAwait (trim a) (message_request (trim a))).
  set (sb := SendMessageAwait (trim b) (message_request (trim b))).
  assert (P2 : pending w2 = pending w ++ [sa; sb]).
  { unfold w2, w1, submitted. cbn [pending set_messageInput].
    rewrite <- app_assoc. reflexivity. }
  assert (C2 : chatMessages (page w2) =
               chatMessages (page w)
               ++ [user_entry (trim a); typingDiv;
                   user_entry (trim b); typingDiv]).
  { unfold w2, w1, submitted.
    cbn [page chatMessages set_messageInput].
    rewrite <- app_assoc. reflexivity. }
  set (w3 := push_chatHistory (mkExchange (trim b) (VStr tb) now1)
               (with_panel []
                  (set_chatMessages (fun cs => cs ++ [bot_entry tb])
                     (set_chatMessages (remove_by_id "typingIndicator")
                        (set_pending (remove_nth (L + 1)) w2))))).
  assert (E3 : step (Settles (L + 1)
                       (json_response 200 [("text"%string, VStr tb)]) now1) w2
               = Some w3).
  { apply (settle_plain w2 (L + 1) (trim b) (message_request (trim b)));
      try reflexivity; [ | left; reflexivity ].
    rewrite P2. unfold L. rewrite nth_error_app_at. reflexivity. }
  assert (P3 : pending w3 = pending w ++ [sa]).
  { unfold w3. cbn [pending push_chatHistory with_panel set_chatMessages
                    set_pending].
    rewrite P2. unfold L. rewrite remove_nth_app_at. reflexivity. }
  assert (C3 : chatMessages (page w3) =
               chatMessages (page w)
               ++ [user_entry (trim a); user_entry (trim b); typingDiv;
                   bot_entry tb]).
  { unfold w3. cbn [page chatMessages push_chatHistory with_panel
                    set_chatMessages set_pending].
    rewrite C2, (remove_after_none _ _ S0). cbn [remove_by_id].
    cbn. rewrite <- app_assoc. reflexivity. }
  set (w4 := push_chatHistory (mkExchange (trim a) (VStr ta) now2)
               (with_panel []
                  (set_chatMessages (fun cs => cs ++ [bot_entry ta])
                     (set_chatMessages (remove_by_id "typingIndicator")
                        (set_pending (remove_nth L) w3))))).
  assert (E4 : step (Settles L
                       (json_response 200 [("text"%string, VStr ta)]) now2) w3
               = Some w4).
  { apply (settle_plain w3 L (trim a) (message_request (trim a)));
      try reflexivity; [ | left; reflexivity ].
    rewrite P3. unfold L. apply nth_error_snoc. }
  assert (C4 : chatMessages (page w4) =
               chatMessages (page w)
               ++ [user_entry (trim a); user_entry (trim b); bot_entry tb;
                   bot_entry ta]).
  { unfold w4. cbn [page chatMessages push_chatHistory with_panel
                    set_chatMessages set_pending].
    rewrite C3, (remove_after_none _ _ S0). cbn [remove_by_id].
    cbn. rewrite <- app_assoc. reflexivity. }
  exists w4. split; [ | split; [ exact C4 | split; [ | split; [ | split ] ] ] ].
  - change [UserTypes a; KeyPress "Enter"; UserTypes b; KeyPress "Enter";
            Settles (L + 1) (json_response 200 [("text"%string, VStr tb)]) now1;
            Settles L (json_response 200 [("text"%string, VStr ta)]) now2]
      with ([UserTypes a; KeyPress "Enter"]
            ++ [UserTypes b; KeyPress "Enter"]
            ++ [Settles (L + 1)
                        (json_response 200 [("text"%string, VStr tb)]) now1;
                Settles L (json_response 200 [("text"%string, VStr ta)]) now2]).
    rewrite run_app, (submit_step a w Ha). cbv beta iota. fold w1.
    rewrite run_app, (submit_step b w1 Hb). cbv beta iota. fold w2.
    cbn [run]. rewrite E3, E4. reflexivity.
  - unfold w4, w3. cbn [chatHistory push_chatHistory with_panel
                        set_chatMessages set_pending].
    unfold w2, w1, submitted. cbn [chatHistory set_messageInput].
    rewrite <- app_assoc. reflexivity.
  - unfold shown. rewrite C4, indicators_app, S0. reflexivity.
  - apply state_idle_sends.
    unfold w4. cbn [pending push_chatHistory with_panel set_chatMessages
                    set_pending].
    rewrite P3. unfold L. rewrite remove_nth_snoc. exact P0.
  - unfold inert. rewrite C4, inert_page_app, N.
    cbn [inert_page forallb].
    rewrite (inert_user_entry _ Ga), (inert_user_entry _ Gb),
            (inert_bot_entry _ Gtb), (inert_bot_entry _ Gta).
    reflexivity.
Qed.

Lemma overlapping_sends_both_settle_witness :
  reachable fresh /\
  inert fresh /\
  state fresh = Idle /\
  trim "first" <> EmptyString /\
  trim " second " <> EmptyString /\
  tagless (trim "first") = true /\
  tagless (trim " second ") = true /\
  tagless "one" = true /\
  tagless "two" = true /\
  exists w' : World,
    run [UserTypes "first"; KeyPress "Enter";
         UserTypes " second "; KeyPress "Enter";
         Settles (List.length (pending fresh) + 1)
                 (json_response 200 [("text"%string, VStr "two")]) "t1";
         Settles (List.length (pending fresh))
                 (json_response 200 [("text"%string, VStr "one")]) "t2"] fresh
      = Some w' /\
    chatMessages (page w') =
      chatMessages (page fresh)
      ++ [user_entry (trim "first"); user_entry (trim " second ");
          bot_entry "two"; bot_entry "one"] /\
    chatHistory w' =
      chatHistory fresh ++ [mkExchange (trim " second ") (VStr "two") "t1";
                            mkExchange (trim "first") (VStr "one") "t2"] /\
    shown w' = 0 /\
    state w' = Idle /\
    inert w'.
Proof.
  assert (R : reachable fresh).
  { exists (mkPage [] EmptyString), []. split; reflexivity. }
  assert (A : trim "first" <> EmptyString) by (vm_compute; discriminate).
  assert (B : trim " second " <> EmptyString) by (vm_compute; discriminate).
  split; [ exact R | ].
  split; [ reflexivity | ].
  split; [ reflexivity | ].
  split; [ exact A | ].
  split; [ exact B | ].
  split; [ reflexivity | ].
  split; [ reflexivity | ].
  split; [ reflexivity | ].
  split; [ reflexivity | ].
  exact (overlapping_sends_both_settle fresh "first" " second " "one" "two"
           "t1" "t2" R eq_refl eq_refl A B eq_refl eq_refl eq_refl eq_refl).
Defined.

(* ================================================================= *)
(** ** Further properties: the startup load *)

(** X12.  When the body of the suggestions response decodes to an object
    whose [suggestions] is absent, falsy or an empty array, the startup load
    ends silently: no timer is set, nothing is logged and the page is as it
    was. *)
Theorem load_without_suggestions_is_silent
        (w : World) (n : nat) (req : Fetch) (status : Z)
        (props : list (string * value)) (now : string) :
  nth_error (pending w) n = Some (StartupAwait req) ->
  truthy (lookup "suggestions" props) = false \/
  lookup "suggestions" props = VArr [] ->
  step (Settles n (json_response status props) now) w =
  Some (set_pending (remove_nth n) w).
Proof.
  intros Hn Hs. cbn [step]. rewrite Hn.
  unfold task, startup_resume, try_catch, bind, eval, json_response.
  cbn [decoded member].
  destruct Hs as [Hs | Hs]; rewrite Hs; reflexivity.
Qed.

Lemma load_without_suggestions_is_silent_witness :
  nth_error (pending fresh) 0 = Some (StartupAwait suggestions_request) /\
  (truthy (lookup "suggestions" [("ok"%string, VBool true)]) = false \/
   lookup "suggestions" [("ok"%string, VBool true)] = VArr []) /\
  step (Settles 0 (json_response 200 [("ok"%string, VBool true)]) "t") fresh =
  Some (set_pending (remove_nth 0) fresh).
Proof.
  split; [ reflexivity | ].
  split; [ left; reflexivity | ].
  exact (load_without_suggestions_is_silent
           fresh 0 suggestions_request 200 [("ok"%string, VBool true)] "t"
           eq_refl (or_introl eq_refl)).
Defined.

(* ================================================================= *)
(** ** Further properties: book-list responses *)

(** X13.  On a page without foreign markup, a response of type
    ['book_list'] with a string [text], an array of well-formed [books]
    (string title and author, genre a string or absent, rating any number
    or absent) and no [suggestions] hides one indicator, appends one entry
    made of the heading and one card per book, in order, and records the
    exchange with the heading as the reply. *)
Theorem book_list_response_is_shown_and_recorded
        (w : World) (n : nat) (message : string) (req : Fetch) (status : Z)
        (props : list (string * value)) (heading : string)
        (vs : list value) (books : list BookSummary) (now : string) :
  inert w ->
  nth_error (pending w) n = Some (SendMessageAwait message req) ->
  lookup "text" props = VStr heading ->
  lookup "type" props = VStr "book_list" ->
  lookup "books" props = VArr vs ->
  Forall2 represents vs books ->
  has_own "suggestions" props = false ->
  step (Settles n (json_response status props) now) w =
  Some (push_chatHistory (mkExchange message (VStr heading) now)
          (set_chatMessages
             (fun cs => cs ++ [book_list_entry heading
                                 (map card_rendered books)])
             (set_chatMessages (remove_by_id "typingIndicator")
                (set_pending (remove_nth n) w)))).
Proof.
  intros _ Hn Ht Hy Hb Hr Hs.
  rewrite (settle_send _ _ _ _ _ _ Hn). unfold task.
  rewrite resume_object. unfold try_catch.
  rewrite show_response_object.
  rewrite Ht, Hy, Hb, (lookup_absent _ _ Hs). cbn [or_else truthy].
  unfold bind at 1. rewrite (addMessage_book_list heading vs books _ Hr).
  reflexivity.
Qed.

Lemma book_list_response_is_shown_and_recorded_witness :
  let w := submitted "books please" fresh in
  let props := [("text", VStr "Two classics"); ("type", VStr "book_list");
                ("books", VArr [dune_json; orwell_json])]%string in
  inert w
  /\ nth_error (pending w) 1
    = Some (SendMessageAwait "books please" (message_request "books please"))
  /\ lookup "text" props = VStr "Two classics"
  /\ lookup "type" props = VStr "book_list"
  /\ lookup "books" props = VArr [dune_json; orwell_json]
  /\ Forall2 represents [dune_json; orwell_json] [dune; orwell]
  /\ has_own "suggestions" props = false
  /\ step (Settles 1 (json_response 200 props) "t") w =
     Some (push_chatHistory
             (mkExchange "books please" (VStr "Two classics") "t")
             (set_chatMessages
                (fun cs => cs ++ [book_list_entry "Two classics"
                                    (map card_rendered [dune; orwell])])
                (set_chatMessages (remove_by_id "typingIndicator")
                   (set_pending (remove_nth 1) w)))).
Proof.
  cbv zeta.
  repeat (split; [ first [ reflexivity | exact dune_and_orwell_represented ] | ]).
  exact (book_list_response_is_shown_and_recorded
           (submitted "books please" fresh) 1 "books please"
           (message_request "books please") 200
           [("text", VStr "Two classics"); ("type", VStr "book_list");
            ("books", VArr [dune_json; orwell_json])]%string
           "Two classics" [dune_json; orwell_json] [dune; orwell] "t"
           eq_refl eq_refl eq_refl eq_refl eq_refl
           dune_and_orwell_represented eq_refl).
Defined.

(** X14.  When no card can be made of [books] (it is truthy and no array,
    or a [null] follows well-formed books in it), a book-list response shows
    nothing of its own: the heading and the cards built so far are dropped.
    On a page without foreign markup and with at most one indicator, the
    indicator is hidden, the apology is rendered, the error is logged and
    the exchange is not recorded. *)
Theorem unusable_books_end_in_apology_only
        (w : World) (n : nat) (message : string) (req : Fetch) (status : Z)
        (props : list (string * value)) (heading : string) (now : string) :
  inert w ->
  nth_error (pending w) n = Some (SendMessageAwait message req) ->
  lookup "text" props = VStr heading ->
  lookup "type" props = VStr "book_list" ->
  unusable_books (lookup "books" props) ->
  shown w <= 1 ->
  step (Settles n (json_response status props) now) w =
  Some (failed TypeError (set_pending (remove_nth n) w)).
Proof.
  intros _ Hn Ht Hy Hb S1.
  rewrite (settle_send _ _ _ _ _ _ Hn). unfold task.
  rewrite resume_object. unfold try_catch.
  rewrite show_response_object.
  assert (Ob : or_else (lookup "books" props) (VArr []) = lookup "books" props).
  { unfold or_else. rewrite (unusable_truthy _ Hb). reflexivity. }
  rewrite Ob, Ht, Hy.
  change (or_else (VStr "book_list") (VStr "text")) with (VStr "book_list").
  unfold bind at 1. rewrite (addMessage_unusable_books heading _ _ _ Hb).
  rewrite sendMessage_catch_spec.
  f_equal. unfold failed. cbn -[remove_by_id].
  rewrite (remove_twice _ S1). reflexivity.
Qed.

Lemma unusable_books_end_in_apology_only_witness :
  let w := submitted "books please" fresh in
  let props := [("text", VStr "Two classics"); ("type", VStr "book_list");
                ("books", VArr [dune_json; VNull; orwell_json])]%string in
  inert w
  /\ nth_error (pending w) 1
    = Some (SendMessageAwait "books please" (message_request "books please"))
  /\ lookup "text" props = VStr "Two classics"
  /\ lookup "type" props = VStr "book_list"
  /\ unusable_books (lookup "books" props)
  /\ shown w <= 1
  /\ step (Settles 1 (json_response 200 props) "t") w =
     Some (failed TypeError (set_pending (remove_nth 1) w)).
Proof.
  cbv zeta.
  assert (U : unusable_books
                (lookup "books"
                   [("text", VStr "Two classics"); ("type", VStr "book_list");
                    ("books", VArr [dune_json; VNull; orwell_json])]%string)).
  { right. exists [dune_json], [dune], [orwell_json].
    split; [ reflexivity | ].
    repeat constructor. eexists. split; [ reflexivity | repeat split ]. }
  assert (S1 : shown (submitted "books please" fresh) <= 1)
    by (vm_compute; lia).
  split; [ reflexivity | ].
  split; [ reflexivity | ].
  split; [ reflexivity | ].
  split; [ reflexivity | ].
  split; [ exact U | ].
  split; [ exact S1 | ].
  exact (unusable_books_end_in_apology_only
           (submitted "books please" fresh) 1 "books please"
           (message_request "books please") 200
           [("text", VStr "Two classics"); ("type", VStr "book_list");
            ("books", VArr [dune_json; VNull; orwell_json])]%string
           "Two classics" "t" eq_refl eq_refl eq_refl eq_refl U S1).
Defined.

(* ================================================================= *)
(** ** Further properties: what the background leaves alone *)

(** X15.  A request that settles and a timer that fires never touch the
    input field: what the user is typing stays while responses and
    suggestion panels arrive. *)
Theorem background_leaves_the_input (ev : Event) (w w' : World) :
  in_background ev = true ->
  step ev w = Some w' ->
  messageInput (page w') = messageInput (page w).
Proof.
  intros B H.
  destruct ev as [s | key | panel c | n o now | n ]; try discriminate B;
    cbn [step] in H.
  - destruct (nth_error (pending w) n) as [[message req | req] | ];
      [ | | discriminate ].
    + apply (keeps_task _ same_input_trans _ _ _ same_input_log) in H;
        [ exact H | apply sendMessage_resume_same_input ].
    + apply (keeps_task _ same_input_trans _ _ _ same_input_log) in H;
        [ exact H | apply startup_resume_same_input ].
  - destruct (nth_error (timers w) n) as [t | ]; [ | discriminate ].
    apply (keeps_task _ same_input_trans _ _ _ same_input_log) in H;
      [ exact H | apply run_callback_same_input ].
Qed.

Lemma background_leaves_the_input_witness :
  let w := set_messageInput "half a sent" (submitted "hi" fresh) in
  let ev := Settles 1 (json_response 200 [("text"%string, VStr "Hello")]) "t" in
  exists w' : World,
    in_background ev = true /\
    step ev w = Some w' /\
    messageInput (page w') = messageInput (page w).
Proof.
  cbv zeta. eexists. split; [ reflexivity | split ].
  - vm_compute. reflexivity.
  - apply (background_leaves_the_input
             (Settles 1 (json_response 200 [("text"%string, VStr "Hello")]) "t")
             (set_messageInput "half a sent" (submitted "hi" fresh)));
      [ reflexivity | vm_compute; reflexivity ].
Defined.

(** X16.  No exchange is ever recorded under an empty message: in every
    world the script can be in, each entry of the history has a [user] text
    that is not empty. *)
Theorem recorded_exchanges_are_named (w : World) :
  reachable w -> Forall named (chatHistory w).
Proof.
  intros (p & evs & _ & Hr).
  apply (run_named evs (startup p)); [ | | exact Hr ].
  - repeat constructor.
  - constructor.
Qed.

Lemma recorded_exchanges_are_named_witness :
  let w := push_chatHistory (mkExchange "hi" (VStr "Hello") "t")
             (set_chatMessages (fun cs => cs ++ [bot_entry "Hello"])
                (set_chatMessages (remove_by_id "typingIndicator")
                   (set_pending (remove_nth 1) (submitted "hi" fresh)))) in
  reachable w /\ Forall named (chatHistory w).
Proof.
  cbv zeta.
  match goal with |- reachable ?x /\ _ => assert (R : reachable x) end.
  { exists (mkPage [] EmptyString),
           [UserTypes "hi"; KeyPress "Enter";
            Settles 1 (json_response 200 [("text"%string, VStr "Hello")]) "t"].
    split; reflexivity. }
  split; [ exact R | exact (recorded_exchanges_are_named _ R) ].
Defined.
